(** * Message dispatch core of go-multi-chat-api

    A shallow embedding of the message use case
    ([src/application/usecases/message/message.go]), the message processor
    ([src/infrastructure/security/azure_ad_service.go]: worker, recovery
    scanner, webhook notifier), the MySQL repositories it calls
    ([src/infrastructure/repository/mysql/provider/*.go]) and the HTTP
    handlers of [src/infrastructure/rest/controllers/send/Send.go].

    The database is an in-memory model of the tables: every table is a list
    of rows in insertion order, ids are handed out by counters.  Database
    calls are modelled as succeeding (driver failures are not part of this
    development); the "not found" results of [GetByID] are modelled.
    Instants are Unix seconds ([Z]); the clock [w_now] is fixed during one
    call, as [time.Now()] is within one short call. *)

From Stdlib Require Import List ZArith String Bool Lia.
From Stdlib Require Import Sorted Permutation.
Import ListNotations.
Open Scope Z_scope.

(** ** Rows *)

(** [provider.MessageTransaction] / table [message_transactions]. *)
Record MessageTransaction := mkTx {
  tx_ID : Z;
  tx_UserID : Z;
  tx_ProviderID : Z;
  tx_Recipients : string;
  tx_Message : string;
  tx_RequestData : string;
  tx_ResponseData : string;
  tx_Status : string;
  tx_ErrorMessage : string;
  tx_RetryCount : Z;
  tx_NextRetryAt : option Z;   (* NULL = None *)
  tx_Processing : bool;
  tx_ProcessedAt : option Z;
  tx_CreatedAt : Z;
  tx_UpdatedAt : Z
}.

(** [provider.MessageTransactionHistory] / table [message_transaction_history];
    [h_MessageID] is the original transaction id. *)
Record MessageTransactionHistory := mkHist {
  h_ID : Z;
  h_MessageID : Z;
  h_UserID : Z;
  h_ProviderID : Z;
  h_Recipients : string;
  h_Message : string;
  h_RequestData : string;
  h_ResponseData : string;
  h_Status : string;
  h_ErrorMessage : string;
  h_RetryCount : Z;
  h_ProcessedAt : Z;
  h_CreatedAt : Z;
  h_UpdatedAt : Z
}.

(** [provider.Provider]; [p_Status] is the active flag. *)
Record Provider := mkProvider {
  p_ID : Z;
  p_Name : string;
  p_Type : string;
  p_Status : bool
}.

(** [provider.UserProvider]; [up_Status] is the active flag. *)
Record UserProvider := mkUserProvider {
  up_ID : Z;
  up_UserID : Z;
  up_ProviderID : Z;
  up_Priority : Z;
  up_Config : string;
  up_Status : bool
}.

(** The user row, as far as the message use case reads it. *)
Record User := mkUser {
  u_ID : Z;
  u_MessageRateLimit : Z
}.

Record DB := mkDB {
  db_txs : list MessageTransaction;
  db_history : list MessageTransactionHistory;
  db_providers : list Provider;
  db_userProviders : list UserProvider;
  db_users : list User;
  db_nextTxID : Z;
  db_nextHistID : Z
}.

(** The JSON payload built by [sendWebhookNotification]. *)
Record WebhookPayload := mkPayload {
  wp_message_id : Z;
  wp_user_id : Z;
  wp_status : string;
  wp_timestamp : Z;
  wp_error : option string   (* key "error" present iff Some *)
}.

(** The process: database, the buffered channel [messageQueue], the webhook
    POSTs started with [go p.sendWebhookRequest(url, payload)], the warnings
    logged on a full queue, and the clock. *)
Record World := mkWorld {
  w_db : DB;
  w_queue : list MessageTransaction;
  w_posts : list (string * WebhookPayload);
  w_warnings : list string;
  w_now : Z
}.

Definition set_db (d : DB) (w : World) : World :=
  mkWorld d (w_queue w) (w_posts w) (w_warnings w) (w_now w).
Definition set_queue (q : list MessageTransaction) (w : World) : World :=
  mkWorld (w_db w) q (w_posts w) (w_warnings w) (w_now w).
Definition add_post (p : string * WebhookPayload) (w : World) : World :=
  mkWorld (w_db w) (w_queue w) (w_posts w ++ [p]) (w_warnings w) (w_now w).
Definition add_warning (s : string) (w : World) : World :=
  mkWorld (w_db w) (w_queue w) (w_posts w) (w_warnings w ++ [s]) (w_now w).

(** ** Repositories *)

Definition userGetByID (d : DB) (id : Z) : option User :=
  find (fun u => u_ID u =? id) (db_users d).

(** [Repository.GetByID] of the provider repository. *)
Definition providerGetByID (d : DB) (id : Z) : option Provider :=
  find (fun p => p_ID p =? id) (db_providers d).

(** [MessageTransactionRepository.GetByID]. *)
Definition txGetByID (d : DB) (id : Z) : option MessageTransaction :=
  find (fun t => tx_ID t =? id) (db_txs d).

(** [GetUserProviders]: [WHERE user_id = ?], no status filter. *)
Definition GetUserProviders (d : DB) (uid : Z) : list UserProvider :=
  filter (fun up => up_UserID up =? uid) (db_userProviders d).

(** [ORDER BY priority ASC]; rows of equal priority keep table order. *)
Fixpoint insertByPriority (x : UserProvider) (l : list UserProvider) : list UserProvider :=
  match l with
  | [] => [x]
  | y :: l' => if up_Priority y <=? up_Priority x then y :: insertByPriority x l'
               else x :: l
  end.

Definition sortByPriority (l : list UserProvider) : list UserProvider :=
  fold_left (fun acc x => insertByPriority x acc) l [].

(** [GetUserProvidersByPriority]:
    [WHERE user_id = ? AND status = true ORDER BY priority ASC]. *)
Definition GetUserProvidersByPriority (d : DB) (uid : Z) : list UserProvider :=
  sortByPriority
    (filter (fun up => (up_UserID up =? uid) && up_Status up) (db_userProviders d)).

(** [MessageTransactionRepository.Create]: the row gets the next id; the
    mappers leave [NextRetryAt] and [ProcessedAt] out (commented out in
    the source), so they are stored as NULL. *)
Definition Create (d : DB) (t : MessageTransaction) : MessageTransaction * DB :=
  let t' := mkTx (db_nextTxID d) (tx_UserID t) (tx_ProviderID t) (tx_Recipients t)
                 (tx_Message t) (tx_RequestData t) (tx_ResponseData t) (tx_Status t)
                 (tx_ErrorMessage t) (tx_RetryCount t) None (tx_Processing t) None
                 (tx_CreatedAt t) (tx_UpdatedAt t) in
  (t', mkDB (db_txs d ++ [t']) (db_history d) (db_providers d) (db_userProviders d)
            (db_users d) (db_nextTxID d + 1) (db_nextHistID d)).

(** The keys of the [map[string]interface{}] passed to [Update]. *)
Inductive TxField :=
| FStatus (s : string)
| FErrorMessage (s : string)
| FProcessing (b : bool)
| FNextRetryAt (t : Z)
| FRequestData (s : string)
| FResponseData (s : string).

Definition applyField (t : MessageTransaction) (f : TxField) : MessageTransaction :=
  match f with
  | FStatus s => mkTx (tx_ID t) (tx_UserID t) (tx_ProviderID t) (tx_Recipients t) (tx_Message t)
      (tx_RequestData t) (tx_ResponseData t) s (tx_ErrorMessage t) (tx_RetryCount t)
      (tx_NextRetryAt t) (tx_Processing t) (tx_ProcessedAt t) (tx_CreatedAt t) (tx_UpdatedAt t)
  | FErrorMessage s => mkTx (tx_ID t) (tx_UserID t) (tx_ProviderID t) (tx_Recipients t) (tx_Message t)
      (tx_RequestData t) (tx_ResponseData t) (tx_Status t) s (tx_RetryCount t)
      (tx_NextRetryAt t) (tx_Processing t) (tx_ProcessedAt t) (tx_CreatedAt t) (tx_UpdatedAt t)
  | FProcessing b => mkTx (tx_ID t) (tx_UserID t) (tx_ProviderID t) (tx_Recipients t) (tx_Message t)
      (tx_RequestData t) (tx_ResponseData t) (tx_Status t) (tx_ErrorMessage t) (tx_RetryCount t)
      (tx_NextRetryAt t) b (tx_ProcessedAt t) (tx_CreatedAt t) (tx_UpdatedAt t)
  | FNextRetryAt n => mkTx (tx_ID t) (tx_UserID t) (tx_ProviderID t) (tx_Recipients t) (tx_Message t)
      (tx_RequestData t) (tx_ResponseData t) (tx_Status t) (tx_ErrorMessage t) (tx_RetryCount t)
      (Some n) (tx_Processing t) (tx_ProcessedAt t) (tx_CreatedAt t) (tx_UpdatedAt t)
  | FRequestData s => mkTx (tx_ID t) (tx_UserID t) (tx_ProviderID t) (tx_Recipients t) (tx_Message t)
      s (tx_ResponseData t) (tx_Status t) (tx_ErrorMessage t) (tx_RetryCount t)
      (tx_NextRetryAt t) (tx_Processing t) (tx_ProcessedAt t) (tx_CreatedAt t) (tx_UpdatedAt t)
  | FResponseData s => mkTx (tx_ID t) (tx_UserID t) (tx_ProviderID t) (tx_Recipients t) (tx_Message t)
      (tx_RequestData t) s (tx_Status t) (tx_ErrorMessage t) (tx_RetryCount t)
      (tx_NextRetryAt t) (tx_Processing t) (tx_ProcessedAt t) (tx_CreatedAt t) (tx_UpdatedAt t)
  end.

Definition touch (now : Z) (t : MessageTransaction) : MessageTransaction :=
  mkTx (tx_ID t) (tx_UserID t) (tx_ProviderID t) (tx_Recipients t) (tx_Message t)
    (tx_RequestData t) (tx_ResponseData t) (tx_Status t) (tx_ErrorMessage t) (tx_RetryCount t)
    (tx_NextRetryAt t) (tx_Processing t) (tx_ProcessedAt t) (tx_CreatedAt t) now.

(** [MessageTransactionRepository.Update]: [UPDATE ... WHERE id = ?] with
    the given columns; gorm also sets [updated_at]. *)
Definition Update (d : DB) (id : Z) (fs : list TxField) (now : Z) : DB :=
  mkDB (map (fun t => if tx_ID t =? id then touch now (fold_left applyField fs t) else t)
            (db_txs d))
       (db_history d) (db_providers d) (db_userProviders d) (db_users d)
       (db_nextTxID d) (db_nextHistID d).

(** [MoveToHistory]: reads the row back and appends a copy to the history
    table with [MessageID] = the row's id; the active row is kept. *)
Definition MoveToHistory (d : DB) (id : Z) (now : Z) : DB :=
  match txGetByID d id with
  | None => d
  | Some t =>
      let h := mkHist (db_nextHistID d) (tx_ID t) (tx_UserID t) (tx_ProviderID t)
                 (tx_Recipients t) (tx_Message t) (tx_RequestData t) (tx_ResponseData t)
                 (tx_Status t) (tx_ErrorMessage t) (tx_RetryCount t) (tx_UpdatedAt t) now now in
      mkDB (db_txs d) (db_history d ++ [h]) (db_providers d) (db_userProviders d)
           (db_users d) (db_nextTxID d) (db_nextHistID d + 1)
  end.

(** [CountUserMessagesForToday]: rows of the active table with
    [startOfDay <= created_at < startOfDay + 24h], UTC. *)
Definition startOfDay (now : Z) : Z := now / 86400 * 86400.

Definition CountUserMessagesForToday (d : DB) (uid : Z) (now : Z) : Z :=
  Z.of_nat (List.length (filter (fun t => (tx_UserID t =? uid)
                                    && (startOfDay now <=? tx_CreatedAt t)
                                    && (tx_CreatedAt t <? startOfDay now + 86400))
                           (db_txs d))).

(** [GetFailedMessagesForRetry]: [status = 'failed' AND next_retry_at <= now]
    (a NULL [next_retry_at] does not satisfy the comparison). *)
Definition GetFailedMessagesForRetry (d : DB) (now : Z) : list MessageTransaction :=
  filter (fun t => String.eqb (tx_Status t) "failed"
                   && match tx_NextRetryAt t with Some n => n <=? now | None => false end)
         (db_txs d).

(** [GetUndeliveredMessages]:
    [status = 'success' AND processing = false AND updated_at <= now - 5min]. *)
Definition GetUndeliveredMessages (d : DB) (now : Z) : list MessageTransaction :=
  filter (fun t => String.eqb (tx_Status t) "success" && negb (tx_Processing t)
                   && (tx_UpdatedAt t <=? now - 300))
         (db_txs d).

(** ** Message processor *)

(** [make(chan *provider.MessageTransaction, 100)]. *)
Definition queueCapacity : nat := 100.

(** [EnqueueMessage]: [select { case q <- msg: ... default: warn }]. *)
Definition EnqueueMessage (msg : MessageTransaction) (w : World) : World :=
  if Nat.ltb (List.length (w_queue w)) queueCapacity
  then set_queue (w_queue w ++ [msg]) w
  else add_warning "Message queue is full, message not queued" w.

(** The fallback path of [checkUndeliveredMessages] enqueues with the same
    [select]/[default] shape and its own warning. *)
Definition EnqueueFallback (msg : MessageTransaction) (w : World) : World :=
  if Nat.ltb (List.length (w_queue w)) queueCapacity
  then set_queue (w_queue w ++ [msg]) w
  else add_warning "Message queue is full, fallback message not queued" w.

(** [WebhookConfig] with its JSON tags [webhook_url] / [webhook_enabled]. *)
Record WebhookConfig := mkWebhookConfig {
  WebhookURL : string;
  Enabled : bool
}.

(** Result of the Signal client's [SendV2]: [data] (nil = None) or an error. *)
Inductive SendV2Result :=
| SendV2Ok (data : option string)   (* the JSON of the returned data *)
| SendV2Err (msg : string).

(** [MessageRequest] of the use case. *)
Record MessageRequest := mkRequest {
  req_Type : string;
  req_Message : string;
  req_Recipients : list string;
  req_UserID : Z
}.

Record MessageResponse := mkResponse {
  resp_ID : Z;
  resp_Status : string;
  resp_Message : string
}.

(** The errors [SendMessage] can return in this model. *)
Inductive SendError :=
| ErrUserNotFound
| ErrRateLimitExceeded      (* errors.New("daily message rate limit exceeded") *)
| ErrProviderNotFound.

Section Dispatch.

(** [encoding/json] and the Signal client are parameters: [jsonMarshalRecipients]
    is [json.Marshal] of a [[]string], [decodeWebhookConfig] is
    [json.Unmarshal] into [WebhookConfig] (None = decode error),
    [marshalSignalRequest] is [json.Marshal(signalRequest)] and [signalSendV2]
    is the outcome of [p.signalService.SendV2(...)] for a transaction.
    [notFoundText] is [err.Error()] of the provider repository's not-found
    error. *)
Variable jsonMarshalRecipients : list string -> string.
Variable decodeWebhookConfig : string -> option WebhookConfig.
Variable marshalSignalRequest : MessageTransaction -> string.
Variable signalSendV2 : MessageTransaction -> SendV2Result.
Variable notFoundText : string.

(** *** Dispatcher: [MessageUseCase.SendMessage] *)

Definition bothActive (d : DB) (up : UserProvider) : bool :=
  match providerGetByID d (up_ProviderID up) with
  | Some p => p_Status p && up_Status up
  | None => false
  end.

(** [var selectedProvider provider.UserProvider]: the zero value. *)
Definition zeroUserProvider : UserProvider := mkUserProvider 0 0 0 0 "" false.

(** The provider selection of [SendMessage] (lines 121-169). *)
Definition selectProvider (d : DB) (req : MessageRequest) (ups : list UserProvider)
  : UserProvider :=
  let highest :=
    match find (bothActive d) ups with Some up => up | None => zeroUserProvider end in
  if negb (String.eqb (req_Type req) "") then
    let matching :=
      filter (fun up => match providerGetByID d (up_ProviderID up) with
                        | Some p => String.eqb (p_Type p) (req_Type req) && p_Status p
                                    && up_Status up
                        | None => false
                        end) ups in
    match matching with
    | up :: _ => up
    | [] => highest
    end
  else highest.

(** [SendMessage] returns a response pointer and an error; [None] is [nil].
    Lines 116-119 log "No providers configured" and [return nil, err]
    where [err] is the (nil) error of the preceding successful call. *)
Definition SendMessage (req : MessageRequest) (w : World)
  : (option MessageResponse * option SendError) * World :=
  let d := w_db w in
  let uid := req_UserID req in
  match userGetByID d uid with
  | None => ((None, Some ErrUserNotFound), w)
  | Some user =>
      let messageCount := CountUserMessagesForToday d uid (w_now w) in
      if u_MessageRateLimit user <=? messageCount
      then ((None, Some ErrRateLimitExceeded), w)
      else
        let userProviders := GetUserProvidersByPriority d uid in
        match userProviders with
        | [] => ((None, None), w)
        | _ :: _ =>
            let selected := selectProvider d req userProviders in
            match providerGetByID d (up_ProviderID selected) with
            | None => ((None, Some ErrProviderNotFound), w)
            | Some _ =>
                let t := mkTx 0 uid (up_ProviderID selected)
                              (jsonMarshalRecipients (req_Recipients req))
                              (req_Message req) "" "" "pending" "" 0 None false None
                              (w_now w) (w_now w) in
                let (created, d') := Create d t in
                let w' := EnqueueMessage created (set_db d' w) in
                ((Some (mkResponse (tx_ID created) "pending" "Message queued for processing"),
                  None), w')
            end
        end
  end.

(** *** Webhook notifier: [sendWebhookNotification] *)

Definition webhookStep (userID messageID : Z) (status errorMessage : string)
  (w : World) (up : UserProvider) : World :=
  if negb (String.eqb (up_Config up) "") then
    match decodeWebhookConfig (up_Config up) with
    | None => w
    | Some config =>
        if Enabled config && negb (String.eqb (WebhookURL config) "") then
          add_post (WebhookURL config,
                    mkPayload messageID userID status (w_now w)
                      (if String.eqb errorMessage "" then None else Some errorMessage)) w
        else w
    end
  else w.

Definition sendWebhookNotification (userID messageID : Z) (status errorMessage : string)
  (w : World) : World :=
  fold_left (webhookStep userID messageID status errorMessage)
            (GetUserProviders (w_db w) userID) w.

(** *** Worker: [processMessage] and [updateMessageStatus] *)

(** [time.Now().Add(3 * time.Minute)]. *)
Definition retryBackoff : Z := 180.

Definition updateMessageStatus (id : Z) (status errorMessage responseData : string)
  (w : World) : World :=
  let now := w_now w in
  let fields := [FStatus status; FErrorMessage errorMessage; FProcessing false]
                ++ (if String.eqb responseData "" then [] else [FResponseData responseData])
                ++ (if String.eqb status "failed" then [FNextRetryAt (now + retryBackoff)]
                    else []) in
  let d1 := Update (w_db w) id fields now in
  let d2 := if String.eqb status "success" || String.eqb status "failed"
            then MoveToHistory d1 id now else d1 in
  set_db d2 w.

(** The provider dispatch of [processMessage].  In the ["signal"] case the
    source writes [data, sendErr := p.signalService.SendV2(...)] inside the
    case clause: this declares a new [sendErr] that shadows the outer one,
    so the outer [sendErr] stays nil whatever [SendV2] returns; only
    [responseData] depends on the outcome.  Result: (requestData, sendErr,
    responseData). *)
Definition dispatchProvider (p : Provider) (msg : MessageTransaction)
  : string * option string * string :=
  if String.eqb (p_Type p) "signal" then
    (marshalSignalRequest msg, None,
     match signalSendV2 msg with SendV2Ok (Some data) => data | _ => ""%string end)
  else if String.eqb (p_Type p) "email" then
    (""%string, Some "email provider not implemented yet"%string, ""%string)
  else (""%string, Some ("unsupported provider type: " ++ p_Type p)%string, ""%string).

Definition processMessage (msg : MessageTransaction) (w : World) : World :=
  let now := w_now w in
  match providerGetByID (w_db w) (tx_ProviderID msg) with
  | None => updateMessageStatus (tx_ID msg) "failed" notFoundText "" w
  | Some p =>
      if negb (p_Status p) then updateMessageStatus (tx_ID msg) "failed" "provider is inactive" "" w
      else
        let '(requestData, sendErr, responseData) := dispatchProvider p msg in
        match sendErr with
        | Some e =>
            let d1 := Update (w_db w) (tx_ID msg)
                        [FRequestData requestData; FProcessing false; FStatus "failed";
                         FErrorMessage e; FResponseData ""; FNextRetryAt (now + retryBackoff)]
                        now in
            let d2 := MoveToHistory d1 (tx_ID msg) now in
            sendWebhookNotification (tx_UserID msg) (tx_ID msg) "failed" e (set_db d2 w)
        | None =>
            let d1 := Update (w_db w) (tx_ID msg)
                        [FRequestData requestData; FProcessing false; FStatus "success";
                         FResponseData responseData; FErrorMessage ""]
                        now in
            let d2 := MoveToHistory d1 (tx_ID msg) now in
            sendWebhookNotification (tx_UserID msg) (tx_ID msg) "success" "" (set_db d2 w)
        end
  end.

(** One worker iteration: [case msg := <-p.messageQueue: p.processMessage(msg)]. *)
Definition workerStep (w : World) : World :=
  match w_queue w with
  | [] => w
  | msg :: rest => processMessage msg (set_queue rest w)
  end.

End Dispatch.

(** *** Recovery scanner, pass B: [checkUndeliveredMessages] *)

Definition fallbackErrorMessage : string :=
  "Message not delivered within 5 minutes, fallback to alternative provider triggered".

(** The loop body for one undelivered row [msg]. *)
Definition undeliveredStep (w : World) (msg : MessageTransaction) : World :=
  let now := w_now w in
  let userProviders := GetUserProvidersByPriority (w_db w) (tx_UserID msg) in
  match find (fun up => negb (up_ProviderID up =? tx_ProviderID msg)) userProviders with
  | None => w
  | Some nextProvider =>
      let newMsg := mkTx 0 (tx_UserID msg) (up_ProviderID nextProvider) (tx_Recipients msg)
                         (tx_Message msg) "" "" "pending" "" 0 None false None now now in
      let (created, d1) := Create (w_db w) newMsg in
      let d2 := Update d1 (tx_ID msg)
                  [FStatus "fallback_triggered"; FErrorMessage fallbackErrorMessage;
                   FProcessing false] now in
      let d3 := MoveToHistory d2 (tx_ID msg) now in
      EnqueueFallback created (set_db d3 w)
  end.

Definition checkUndeliveredMessages (w : World) : World :=
  fold_left undeliveredStep (GetUndeliveredMessages (w_db w) (w_now w)) w.

(** *** Retry planner: [MessageUseCase.RetryFailedMessages] *)

(** The successor row built at lines 301-310. *)
Definition retryTransaction (failedMsg : MessageTransaction) (nextProvider : UserProvider)
  (now : Z) : MessageTransaction :=
  mkTx 0 (tx_UserID failedMsg) (up_ProviderID nextProvider) (tx_Recipients failedMsg)
       (tx_Message failedMsg) "" "" "pending" "" (tx_RetryCount failedMsg + 1) None false None
       now now.

(** [for i, userProvider := range *userProviders { ... }] (lines 274-331):
    [userProviders] is the whole list, [rest] the part still to visit, [i]
    the index of its head.  The two [continue]s go on with the next index;
    [break] ends the loop after the successor is created and enqueued. *)
Fixpoint retryScan (failedMsg : MessageTransaction) (userProviders rest : list UserProvider)
  (i : nat) (w : World) : World :=
  match rest with
  | [] => w
  | userProvider :: rest' =>
      if up_ProviderID userProvider =? tx_ProviderID failedMsg then
        match nth_error userProviders (S i) with
        | None => retryScan failedMsg userProviders rest' (S i) w
        | Some nextProvider =>
            match providerGetByID (w_db w) (up_ProviderID nextProvider) with
            | None => retryScan failedMsg userProviders rest' (S i) w
            | Some providerDetails =>
                if negb (p_Status providerDetails) || negb (up_Status nextProvider)
                then retryScan failedMsg userProviders rest' (S i) w
                else
                  let (created, d') :=
                    Create (w_db w) (retryTransaction failedMsg nextProvider (w_now w)) in
                  EnqueueMessage created (set_db d' w)
            end
        end
      else retryScan failedMsg userProviders rest' (S i) w
  end.

Definition retryOne (w : World) (failedMsg : MessageTransaction) : World :=
  match GetUserProvidersByPriority (w_db w) (tx_UserID failedMsg) with
  | [] => w
  | userProviders => retryScan failedMsg userProviders userProviders 0 w
  end.

Definition RetryFailedMessages (w : World) : World :=
  fold_left retryOne (GetFailedMessagesForRetry (w_db w) (w_now w)) w.

(** ** Concrete fixtures *)

Definition fx_now : Z := 1700000000.

Definition fx_providers : list Provider :=
  [mkProvider 1 "signal-main" "signal" true; mkProvider 2 "mail" "email" true;
   mkProvider 3 "sms-gw" "sms" false].

Definition fx_hookConfig : string := "webhook-config-1".

(** A stand-in for [json.Unmarshal] on the configs used below. *)
Definition fx_decode (s : string) : option WebhookConfig :=
  if String.eqb s fx_hookConfig then Some (mkWebhookConfig "https://hook.example/cb" true)
  else None.

Definition fx_marshal (l : list string) : string := String.concat "," l.
Definition fx_signalRequest (_ : MessageTransaction) : string := "{}".
Definition fx_signalOk (_ : MessageTransaction) : SendV2Result := SendV2Ok (Some "{}"%string).
Definition fx_notFound : string := "not found".

(** User 7: Signal binding (priority 1, with a webhook) and email binding
    (priority 2), daily limit 3.  User 8 has no binding. *)
Definition fx_userProviders : list UserProvider :=
  [mkUserProvider 1 7 1 1 fx_hookConfig true; mkUserProvider 2 7 2 2 "" true].

Definition fx_db : DB := mkDB [] [] fx_providers fx_userProviders [mkUser 7 3; mkUser 8 5] 1 1.

Definition fx_world : World := mkWorld fx_db [] [] [] fx_now.

Definition fx_request : MessageRequest := mkRequest "" "hi" ["+15550100"%string] 7.

Definition set_now (n : Z) (w : World) : World :=
  mkWorld (w_db w) (w_queue w) (w_posts w) (w_warnings w) n.

(** ** Lemmas about the repositories *)

Lemma applyFields_keep (fs : list TxField) (t : MessageTransaction) :
  tx_ID (fold_left applyField fs t) = tx_ID t /\
  tx_RetryCount (fold_left applyField fs t) = tx_RetryCount t /\
  tx_UserID (fold_left applyField fs t) = tx_UserID t /\
  tx_CreatedAt (fold_left applyField fs t) = tx_CreatedAt t.
Proof.
  revert t; induction fs as [|f fs IH]; intro t; simpl; [auto|].
  destruct (IH (applyField t f)) as (-> & -> & -> & ->).
  destruct f; simpl; auto.
Qed.

Lemma MoveToHistory_txs (d : DB) (id now : Z) :
  db_txs (MoveToHistory d id now) = db_txs d.
Proof. unfold MoveToHistory; destruct (txGetByID d id); reflexivity. Qed.

Lemma MoveToHistory_lookup (d : DB) (id now x : Z) :
  txGetByID (MoveToHistory d id now) x = txGetByID d x.
Proof. unfold txGetByID; now rewrite MoveToHistory_txs. Qed.

Lemma MoveToHistory_registry (d : DB) (id now : Z) :
  db_providers (MoveToHistory d id now) = db_providers d /\
  db_userProviders (MoveToHistory d id now) = db_userProviders d /\
  db_users (MoveToHistory d id now) = db_users d /\
  db_nextTxID (MoveToHistory d id now) = db_nextTxID d.
Proof. unfold MoveToHistory; destruct (txGetByID d id); repeat split. Qed.

Lemma MoveToHistory_found (d : DB) (id now : Z) (t : MessageTransaction) :
  txGetByID d id = Some t ->
  db_history (MoveToHistory d id now) =
  db_history d ++
    [mkHist (db_nextHistID d) (tx_ID t) (tx_UserID t) (tx_ProviderID t)
       (tx_Recipients t) (tx_Message t) (tx_RequestData t) (tx_ResponseData t)
       (tx_Status t) (tx_ErrorMessage t) (tx_RetryCount t) (tx_UpdatedAt t) now now].
Proof. unfold MoveToHistory; intros ->; reflexivity. Qed.

Lemma EnqueueMessage_keeps (m : MessageTransaction) (w : World) :
  w_db (EnqueueMessage m w) = w_db w /\ w_now (EnqueueMessage m w) = w_now w /\
  w_posts (EnqueueMessage m w) = w_posts w.
Proof. unfold EnqueueMessage; destruct (Nat.ltb _ _); repeat split. Qed.

Lemma EnqueueFallback_keeps (m : MessageTransaction) (w : World) :
  w_db (EnqueueFallback m w) = w_db w /\ w_now (EnqueueFallback m w) = w_now w.
Proof. unfold EnqueueFallback; destruct (Nat.ltb _ _); split; reflexivity. Qed.

Lemma webhook_keeps dec uid mid st e (ups : list UserProvider) (w : World) :
  w_db (fold_left (webhookStep dec uid mid st e) ups w) = w_db w /\
  w_queue (fold_left (webhookStep dec uid mid st e) ups w) = w_queue w /\
  w_now (fold_left (webhookStep dec uid mid st e) ups w) = w_now w.
Proof.
  revert w; induction ups as [|up ups IH]; intro w; simpl; [auto|].
  destruct (IH (webhookStep dec uid mid st e w up)) as (-> & -> & ->).
  unfold webhookStep.
  destruct (negb _); [|auto].
  destruct (dec _) as [c|]; [|auto].
  destruct (_ && _); simpl; auto.
Qed.

Lemma sendWebhookNotification_keeps dec uid mid st e (w : World) :
  w_db (sendWebhookNotification dec uid mid st e w) = w_db w /\
  w_queue (sendWebhookNotification dec uid mid st e w) = w_queue w /\
  w_now (sendWebhookNotification dec uid mid st e w) = w_now w.
Proof. apply webhook_keeps. Qed.

Lemma txGetByID_id (d : DB) (id : Z) (t : MessageTransaction) :
  txGetByID d id = Some t -> tx_ID t = id.
Proof.
  unfold txGetByID; intro H; apply find_some in H; destruct H as [_ H].
  now apply Z.eqb_eq.
Qed.

Lemma find_map_update (h : MessageTransaction -> MessageTransaction) (id : Z)
  (l : list MessageTransaction) (t : MessageTransaction) :
  (forall u, tx_ID (h u) = tx_ID u) ->
  find (fun u => tx_ID u =? id) l = Some t ->
  find (fun u => tx_ID u =? id)
       (map (fun u => if tx_ID u =? id then h u else u) l) = Some (h t).
Proof.
  intro Hh; induction l as [|u l IH]; simpl; [discriminate|].
  destruct (tx_ID u =? id) eqn:E.
  - intro Ht; injection Ht as <-; now rewrite Hh, E.
  - rewrite E; exact IH.
Qed.

Lemma Update_lookup (d : DB) (id : Z) (fs : list TxField) (now : Z) (t : MessageTransaction) :
  txGetByID d id = Some t ->
  txGetByID (Update d id fs now) id = Some (touch now (fold_left applyField fs t)).
Proof.
  unfold txGetByID, Update; simpl; intro H.
  apply (find_map_update (fun u => touch now (fold_left applyField fs u))); [|exact H].
  intro u; unfold touch; simpl; apply applyFields_keep.
Qed.

(** What [updateMessageStatus id "failed" e ""] leaves in the store. *)
Lemma updateMessageStatus_failed (id : Z) (e : string) (w : World) (t : MessageTransaction) :
  txGetByID (w_db w) id = Some t ->
  let w' := updateMessageStatus id "failed" e "" w in
  exists t',
    txGetByID (w_db w') id = Some t' /\ tx_Status t' = "failed"%string /\
    tx_ErrorMessage t' = e /\ tx_NextRetryAt t' = Some (w_now w + retryBackoff) /\
    tx_Processing t' = false /\
    exists h, db_history (w_db w') = db_history (w_db w) ++ [h] /\
              h_MessageID h = id /\ h_Status h = "failed"%string.
Proof.
  intros H w'.
  set (t' := touch (w_now w) (fold_left applyField
                [FStatus "failed"; FErrorMessage e; FProcessing false;
                 FNextRetryAt (w_now w + retryBackoff)] t)).
  assert (HU : txGetByID (Update (w_db w) id
                 [FStatus "failed"; FErrorMessage e; FProcessing false;
                  FNextRetryAt (w_now w + retryBackoff)] (w_now w)) id = Some t')
    by (apply Update_lookup; exact H).
  exists t'; subst w'; unfold updateMessageStatus; cbn -[MoveToHistory Update].
  rewrite MoveToHistory_lookup.
  split; [exact HU|].
  split; [reflexivity|]; split; [reflexivity|]; split; [reflexivity|]; split; [reflexivity|].
  eexists; split; [rewrite (MoveToHistory_found _ _ _ _ HU); reflexivity|].
  simpl; split; [|reflexivity].
  apply txGetByID_id in H; subst t'; unfold touch; simpl; exact H.
Qed.

(** ** Claims *)

(** C3 (the code at a failing input).  Submission by user 8, who exists, is
    under the daily limit and has no provider binding: [SendMessage] logs
    "No providers configured" and returns [nil, err] with [err] nil, so the
    caller sees no response and no error; no row is created. *)
Lemma SendMessage_no_bindings_returns_nil_error :
  SendMessage fx_marshal (mkRequest "" "hi" ["+15550100"%string] 8) fx_world
  = ((None, None), fx_world).
Proof. vm_compute. reflexivity. Qed.

(** C7 (the code's behaviour).  When the provider of a dequeued transaction
    is missing or inactive, [processMessage] calls [updateMessageStatus]:
    the row becomes failed with the error message, [nextRetryAt = now + 3min],
    [processing = false], and it is archived; but no webhook POST is started
    ([w_posts] is unchanged), unlike the send-error path. *)
Lemma processMessage_unusable_provider_no_webhook
  dec sreq ssend nf (msg : MessageTransaction) (w : World) (e : string) :
  (providerGetByID (w_db w) (tx_ProviderID msg) = None /\ e = nf) \/
  (exists p, providerGetByID (w_db w) (tx_ProviderID msg) = Some p /\ p_Status p = false /\
             e = "provider is inactive"%string) ->
  let w' := processMessage dec sreq ssend nf msg w in
  w' = updateMessageStatus (tx_ID msg) "failed" e "" w /\
  w_posts w' = w_posts w /\
  forall t, txGetByID (w_db w) (tx_ID msg) = Some t ->
  exists t',
    txGetByID (w_db w') (tx_ID msg) = Some t' /\ tx_Status t' = "failed"%string /\
    tx_ErrorMessage t' = e /\ tx_NextRetryAt t' = Some (w_now w + retryBackoff) /\
    tx_Processing t' = false /\
    exists h, db_history (w_db w') = db_history (w_db w) ++ [h] /\
              h_MessageID h = tx_ID msg /\ h_Status h = "failed"%string.
Proof.
  intros He w'.
  assert (Hw : w' = updateMessageStatus (tx_ID msg) "failed" e "" w).
  { subst w'; unfold processMessage.
    destruct He as [[-> ->] | (p & -> & Hs & ->)]; [reflexivity|].
    now rewrite Hs. }
  split; [exact Hw|].
  rewrite Hw; split; [reflexivity|].
  intros t Ht; exact (updateMessageStatus_failed _ _ _ _ Ht).
Qed.

(** A worker run on a transaction whose provider (3, the SMS gateway) is
    inactive: user 7 has a webhook-enabled binding, yet no POST starts. *)
Lemma processMessage_unusable_provider_no_webhook_witness :
  let msg := mkTx 1 7 3 "+15550100" "hi" "" "" "pending" "" 0 None false None fx_now fx_now in
  let w := mkWorld (mkDB [msg] [] fx_providers fx_userProviders [mkUser 7 3] 2 1)
                   [] [] [] fx_now in
  w_posts (processMessage fx_decode fx_signalRequest fx_signalOk fx_notFound msg w) = [] /\
  GetUserProviders (w_db w) 7 <> [].
Proof.
  intros msg w.
  destruct (processMessage_unusable_provider_no_webhook fx_decode fx_signalRequest fx_signalOk
              fx_notFound msg w "provider is inactive")
    as (_ & Hp & _).
  - right; exists (mkProvider 3 "sms-gw" "sms" false); repeat split.
  - split; [exact Hp | vm_compute; discriminate].
Defined.

Lemma EnqueueMessage_full (m : MessageTransaction) (w : World) :
  (queueCapacity <= List.length (w_queue w))%nat ->
  w_queue (EnqueueMessage m w) = w_queue w /\
  w_warnings (EnqueueMessage m w) = w_warnings w ++ ["Message queue is full, message not queued"%string].
Proof.
  intro H; unfold EnqueueMessage.
  replace (Nat.ltb (List.length (w_queue w)) queueCapacity) with false
    by (symmetry; apply Nat.ltb_ge; exact H).
  split; reflexivity.
Qed.

Lemma EnqueueMessage_bounded (m : MessageTransaction) (w : World) :
  (List.length (w_queue w) <= queueCapacity)%nat ->
  (List.length (w_queue (EnqueueMessage m w)) <= queueCapacity)%nat.
Proof.
  intro H; unfold EnqueueMessage.
  destruct (Nat.ltb (List.length (w_queue w)) queueCapacity) eqn:E; simpl; [|exact H].
  apply Nat.ltb_lt in E; rewrite length_app; simpl; lia.
Qed.

(** C9.  [SendMessage] is a total function of the state (the [select] with a
    [default] branch never waits): the queue stays within its capacity of
    100; the answer does not depend on the queue's occupancy; a successful
    answer is [{id, "pending"}] for the row just created, and when the queue
    is full the transaction is not queued and a warning is logged. *)
Theorem SendMessage_enqueue_nonblocking enc (req : MessageRequest) (w w' : World) res :
  SendMessage enc req w = (res, w') ->
  ((List.length (w_queue w) <= queueCapacity)%nat ->
   (List.length (w_queue w') <= queueCapacity)%nat) /\
  (forall q, fst (SendMessage enc req (set_queue q w)) = res) /\
  (forall resp, fst res = Some resp ->
     resp_Status resp = "pending"%string /\ snd res = None /\
     (exists t, db_txs (w_db w') = db_txs (w_db w) ++ [t] /\ tx_ID t = resp_ID resp /\
                tx_Status t = "pending"%string) /\
     ((queueCapacity <= List.length (w_queue w))%nat ->
      w_queue w' = w_queue w /\
      w_warnings w' = w_warnings w ++ ["Message queue is full, message not queued"%string])).
Proof.
  unfold SendMessage; cbn [set_queue w_db w_now].
  destruct (userGetByID (w_db w) (req_UserID req)) as [u|];
    [| intro H; injection H as <- <-; repeat split; [auto | discriminate ..]].
  destruct (u_MessageRateLimit u <=? CountUserMessagesForToday (w_db w) (req_UserID req) (w_now w));
    [intro H; injection H as <- <-; repeat split; [auto | discriminate ..]|].
  destruct (GetUserProvidersByPriority (w_db w) (req_UserID req)) as [|up ups];
    [intro H; injection H as <- <-; repeat split; [auto | discriminate ..]|].
  destruct (providerGetByID (w_db w) _);
    [| intro H; injection H as <- <-; repeat split; [auto | discriminate ..]].
  intro H; injection H as <- <-.
  split; [intro Hb; exact (EnqueueMessage_bounded _ (set_db _ w) Hb)|].
  split; [reflexivity|].
  intros resp Hr; injection Hr as <-.
  split; [reflexivity|]; split; [reflexivity|]; split.
  - eexists; split; [rewrite (proj1 (EnqueueMessage_keeps _ _)); reflexivity|].
    split; reflexivity.
  - intro Hc; exact (EnqueueMessage_full _ (set_db _ w) Hc).
Qed.

(** A submission by user 7 while the queue holds 100 transactions. *)
Lemma SendMessage_enqueue_nonblocking_witness :
  let w := set_queue (repeat (mkTx 0 0 0 "" "" "" "" "pending" "" 0 None false None 0 0) 100)
                     fx_world in
  let r := SendMessage fx_marshal fx_request w in
  resp_Status (mkResponse 1 "pending" "Message queued for processing") = "pending"%string /\
  fst r = (Some (mkResponse 1 "pending" "Message queued for processing"), None) /\
  w_queue (snd r) = w_queue w.
Proof.
  intros w r.
  assert (Hr : r = (fst r, snd r)) by (destruct r; reflexivity).
  destruct (SendMessage_enqueue_nonblocking fx_marshal fx_request w (snd r) (fst r) Hr)
    as (_ & _ & Hok).
  assert (Hf : fst r = (Some (mkResponse 1 "pending" "Message queued for processing"), None))
    by (vm_compute; reflexivity).
  destruct (Hok (mkResponse 1 "pending" "Message queued for processing")) as (Hs & _ & _ & Hfull).
  - rewrite Hf; reflexivity.
  - split; [exact Hs|]; split; [exact Hf|].
    apply Hfull; vm_compute; apply le_n.
Defined.

(** The row map [Update] applies keeps each row's id, user, retry count and
    creation time. *)
Lemma Update_row_keeps (id now : Z) (fs : list TxField) (u : MessageTransaction) :
  let f := fun t => if tx_ID t =? id then touch now (fold_left applyField fs t) else t in
  tx_ID (f u) = tx_ID u /\ tx_RetryCount (f u) = tx_RetryCount u /\
  tx_UserID (f u) = tx_UserID u /\ tx_CreatedAt (f u) = tx_CreatedAt u.
Proof.
  simpl; destruct (tx_ID u =? id); [|auto].
  unfold touch; simpl; apply applyFields_keep.
Qed.

Lemma Update_map_ids (d : DB) (id now : Z) (fs : list TxField) :
  map tx_ID (db_txs (Update d id fs now)) = map tx_ID (db_txs d) /\
  map tx_RetryCount (db_txs (Update d id fs now)) = map tx_RetryCount (db_txs d).
Proof.
  unfold Update; simpl; rewrite !map_map; split; apply map_ext; intro u;
    apply (Update_row_keeps id now fs u).
Qed.

(** Shape of the active table after a pass: the old rows, updated in place
    (same ids and retry counts), followed by rows created with retry count 0. *)
Definition grownWithZeroRetry (before after : list MessageTransaction) : Prop :=
  exists old created,
    after = old ++ created /\
    map tx_ID old = map tx_ID before /\
    map tx_RetryCount old = map tx_RetryCount before /\
    Forall (fun t => tx_RetryCount t = 0) created.

Lemma undeliveredStep_grown (before : list MessageTransaction) (w : World) (msg : MessageTransaction) :
  grownWithZeroRetry before (db_txs (w_db w)) ->
  grownWithZeroRetry before (db_txs (w_db (undeliveredStep w msg))).
Proof.
  intros (old & created & Hw & Hid & Hrc & Hc).
  unfold undeliveredStep.
  destruct (find _ _) as [np|]; [|exists old, created; auto].
  unfold Create; cbv beta iota zeta.
  rewrite (proj1 (EnqueueFallback_keeps _ _)); simpl.
  rewrite MoveToHistory_txs; unfold Update; simpl.
  rewrite Hw, <- app_assoc, map_app.
  set (f := fun t => if tx_ID t =? tx_ID msg
                     then touch (w_now w) (fold_left applyField
                            [FStatus "fallback_triggered"; FErrorMessage fallbackErrorMessage;
                             FProcessing false] t) else t).
  exists (map f old), (map f (created ++ [mkTx (db_nextTxID (w_db w)) (tx_UserID msg)
            (up_ProviderID np) (tx_Recipients msg) (tx_Message msg) "" "" "pending" "" 0
            None false None (w_now w) (w_now w)])).
  split; [reflexivity|].
  split; [rewrite map_map, <- Hid; apply map_ext; intro u; apply (Update_row_keeps _ _ _ u)|].
  split; [rewrite map_map, <- Hrc; apply map_ext; intro u; apply (Update_row_keeps _ _ _ u)|].
  apply Forall_map, Forall_app; split.
  - eapply Forall_impl; [|exact Hc]; intros u Hu.
    destruct (Update_row_keeps (tx_ID msg) (w_now w) [FStatus "fallback_triggered";
               FErrorMessage fallbackErrorMessage; FProcessing false] u) as (_ & K & _).
    cbv beta in K; unfold f; cbv beta; rewrite K; exact Hu.
  - constructor; [|constructor].
    unfold f; cbv beta.
    destruct (_ =? _); reflexivity.
Qed.

Lemma undeliveredLoop_grown (before : list MessageTransaction) (rows : list MessageTransaction) :
  forall w, grownWithZeroRetry before (db_txs (w_db w)) ->
  grownWithZeroRetry before (db_txs (w_db (fold_left undeliveredStep rows w))).
Proof.
  induction rows as [|m ms IH]; intros w H; simpl; [exact H|].
  apply IH, undeliveredStep_grown, H.
Qed.

(** C10.  Every transaction created by Pass B ([checkUndeliveredMessages])
    has retry count 0, whatever the retry count of the row it replaces: the
    active table afterwards is the old rows (same ids and retry counts)
    followed by the created rows, all with [RetryCount = 0]. *)
Theorem checkUndeliveredMessages_fallback_retry_zero (w : World) :
  grownWithZeroRetry (db_txs (w_db w)) (db_txs (w_db (checkUndeliveredMessages w))).
Proof.
  unfold checkUndeliveredMessages.
  apply undeliveredLoop_grown.
  exists (db_txs (w_db w)), []; rewrite app_nil_r; auto.
Qed.

(** ** Lookups by id *)

Lemma find_app_some {A} (p : A -> bool) (l l' : list A) (x : A) :
  find p l = Some x -> find p (l ++ l') = Some x.
Proof.
  induction l as [|a l IH]; simpl; [discriminate|].
  destruct (p a); [exact id | exact IH].
Qed.

Lemma find_app_none {A} (p : A -> bool) (l l' : list A) :
  find p l = None -> find p (l ++ l') = find p l'.
Proof.
  induction l as [|a l IH]; simpl; [reflexivity|].
  destruct (p a); [discriminate | exact IH].
Qed.

Lemma find_id_exists (l : list MessageTransaction) (id : Z) :
  In id (map tx_ID l) -> exists t, find (fun u => tx_ID u =? id) l = Some t.
Proof.
  induction l as [|u l IH]; simpl; [contradiction|].
  intros [Hu | Hl].
  - exists u; rewrite Hu, Z.eqb_refl; reflexivity.
  - destruct (tx_ID u =? id); [exists u; reflexivity | exact (IH Hl)].
Qed.

Lemma find_id_fresh (l : list MessageTransaction) (n : Z) :
  Forall (fun t => tx_ID t < n) l -> find (fun u => tx_ID u =? n) l = None.
Proof.
  induction 1 as [|u l Hu _ IH]; simpl; [reflexivity|].
  replace (tx_ID u =? n) with false by (symmetry; apply Z.eqb_neq; lia).
  exact IH.
Qed.

Lemma find_first_other (pid : Z) (pre post : list UserProvider) (np : UserProvider) :
  Forall (fun up => up_ProviderID up = pid) pre -> up_ProviderID np <> pid ->
  find (fun up => negb (up_ProviderID up =? pid)) (pre ++ np :: post) = Some np.
Proof.
  induction 1 as [|u pre Hu _ IH]; simpl; intro Hn.
  - replace (up_ProviderID np =? pid) with false by (symmetry; apply Z.eqb_neq; exact Hn).
    reflexivity.
  - rewrite Hu, Z.eqb_refl; simpl; exact (IH Hn).
Qed.

Lemma find_none_all_same (pid : Z) (ups : list UserProvider) :
  Forall (fun up => up_ProviderID up = pid) ups ->
  find (fun up => negb (up_ProviderID up =? pid)) ups = None.
Proof.
  induction 1 as [|u ups Hu _ IH]; simpl; [reflexivity|].
  rewrite Hu, Z.eqb_refl; exact IH.
Qed.

Lemma Update_lookup_other (d : DB) (id : Z) (fs : list TxField) (now x : Z) (t : MessageTransaction) :
  x <> id -> txGetByID d x = Some t -> txGetByID (Update d id fs now) x = Some t.
Proof.
  intro Hx; unfold txGetByID, Update; simpl.
  induction (db_txs d) as [|u l IH]; simpl; [discriminate|].
  destruct (Update_row_keeps id now fs u) as (Hid & _); cbv beta in Hid; rewrite Hid.
  destruct (tx_ID u =? x) eqn:E; [|exact IH].
  intro Hu; injection Hu as <-.
  apply Z.eqb_eq in E; replace (tx_ID u =? id) with false
    by (symmetry; apply Z.eqb_neq; lia).
  reflexivity.
Qed.

(** C6.  Pass B selects exactly the rows with status "success",
    [processing = false] and [updatedAt <= now - 5min] and runs
    [undeliveredStep] on each.  For a row: if every active binding of the
    user (by priority) has the row's provider, nothing happens; otherwise,
    with the first binding [np] whose provider differs, a fresh pending row
    for [np]'s provider copying user, recipients and body is created, the
    original row becomes "fallback_triggered" with the explanatory error
    message and [processing = false], and then it is archived (the history
    copy carries the new status). *)
Theorem checkUndeliveredMessages_fallback :
  (forall d now t,
     In t (GetUndeliveredMessages d now) <->
     In t (db_txs d) /\ tx_Status t = "success"%string /\ tx_Processing t = false /\
     tx_UpdatedAt t <= now - 300) /\
  (forall w, checkUndeliveredMessages w =
             fold_left undeliveredStep (GetUndeliveredMessages (w_db w) (w_now w)) w) /\
  (forall w msg,
     Forall (fun up => up_ProviderID up = tx_ProviderID msg)
            (GetUserProvidersByPriority (w_db w) (tx_UserID msg)) ->
     undeliveredStep w msg = w) /\
  (forall w msg pre np post,
     GetUserProvidersByPriority (w_db w) (tx_UserID msg) = pre ++ np :: post ->
     Forall (fun up => up_ProviderID up = tx_ProviderID msg) pre ->
     up_ProviderID np <> tx_ProviderID msg ->
     Forall (fun t => tx_ID t < db_nextTxID (w_db w)) (db_txs (w_db w)) ->
     In (tx_ID msg) (map tx_ID (db_txs (w_db w))) ->
     let d' := w_db (undeliveredStep w msg) in
     (exists c, txGetByID d' (db_nextTxID (w_db w)) = Some c /\
                tx_UserID c = tx_UserID msg /\ tx_ProviderID c = up_ProviderID np /\
                tx_Recipients c = tx_Recipients msg /\ tx_Message c = tx_Message msg /\
                tx_Status c = "pending"%string /\ tx_Processing c = false) /\
     (exists t', txGetByID d' (tx_ID msg) = Some t' /\
                 tx_Status t' = "fallback_triggered"%string /\
                 tx_ErrorMessage t' = fallbackErrorMessage /\ tx_Processing t' = false) /\
     (exists h, db_history d' = db_history (w_db w) ++ [h] /\ h_MessageID h = tx_ID msg /\
                h_Status h = "fallback_triggered"%string /\
                h_ErrorMessage h = fallbackErrorMessage)).
Proof.
  split; [|split; [|split]].
  - intros d now t; unfold GetUndeliveredMessages; rewrite filter_In.
    rewrite !andb_true_iff, String.eqb_eq, negb_true_iff, Z.leb_le; tauto.
  - reflexivity.
  - intros w msg H; unfold undeliveredStep; rewrite (find_none_all_same _ _ H); reflexivity.
  - intros w msg pre np post Hups Hpre Hnp Hfresh Hin d'.
    subst d'; unfold undeliveredStep; rewrite Hups, (find_first_other _ _ _ _ Hpre Hnp).
    unfold Create; cbv beta iota zeta.
    rewrite (proj1 (EnqueueFallback_keeps _ _)); cbn [w_db set_db].
    set (c := mkTx (db_nextTxID (w_db w)) (tx_UserID msg) (up_ProviderID np) (tx_Recipients msg)
                (tx_Message msg) "" "" "pending" "" 0 None false None (w_now w) (w_now w)).
    set (fs := [FStatus "fallback_triggered"; FErrorMessage fallbackErrorMessage;
                FProcessing false]).
    set (d1 := mkDB (db_txs (w_db w) ++ [c]) (db_history (w_db w)) (db_providers (w_db w))
                 (db_userProviders (w_db w)) (db_users (w_db w)) (db_nextTxID (w_db w) + 1)
                 (db_nextHistID (w_db w))).
    destruct (find_id_exists _ _ Hin) as [t Ht].
    assert (Ht1 : txGetByID d1 (tx_ID msg) = Some t)
      by (unfold txGetByID; simpl; apply find_app_some; exact Ht).
    pose proof (Update_lookup d1 (tx_ID msg) fs (w_now w) t Ht1) as HU.
    split; [|split].
    + exists c; rewrite MoveToHistory_lookup; split; [|repeat split].
      apply Update_lookup_other.
      * apply in_map_iff in Hin; destruct Hin as (u & Hu & Hu').
        rewrite Forall_forall in Hfresh; specialize (Hfresh u Hu'); lia.
      * unfold txGetByID; simpl; rewrite find_app_none by (apply find_id_fresh; exact Hfresh).
        simpl; rewrite Z.eqb_refl; reflexivity.
    + eexists; rewrite MoveToHistory_lookup; split; [exact HU|].
      repeat split.
    + eexists; split; [rewrite (MoveToHistory_found _ _ _ _ HU); reflexivity|].
      simpl; split; [|split; reflexivity].
      apply txGetByID_id in Ht1; exact Ht1.
Qed.

(** A row of user 7 that succeeded on Signal 400 s ago: Pass B moves it to
    the email binding. *)
Lemma checkUndeliveredMessages_fallback_witness :
  let msg := mkTx 1 7 1 "+15550100" "hi" "{}" "{}" "success" "" 0 None false None
                  (fx_now - 400) (fx_now - 400) in
  let w := mkWorld (mkDB [msg] [] fx_providers fx_userProviders [mkUser 7 3] 2 1)
                   [] [] [] fx_now in
  In msg (GetUndeliveredMessages (w_db w) (w_now w)) /\
  exists c, txGetByID (w_db (undeliveredStep w msg)) 2 = Some c /\ tx_ProviderID c = 2.
Proof.
  intros msg w.
  destruct checkUndeliveredMessages_fallback as (Hsel & _ & _ & Hstep).
  split.
  - apply Hsel; split; [left; reflexivity|]; repeat split; vm_compute; try discriminate; reflexivity.
  - destruct (Hstep w msg [mkUserProvider 1 7 1 1 fx_hookConfig true]
                (mkUserProvider 2 7 2 2 "" true) [])
      as ((c & Hc & _ & Hp & _) & _ & _).
    + vm_compute; reflexivity.
    + repeat constructor.
    + vm_compute; discriminate.
    + repeat constructor.
    + left; reflexivity.
    + exists c; split; [exact Hc | exact Hp].
Defined.

(** ** The dispatcher's daily limit *)

Lemma day_bounds (n : Z) : startOfDay n <= n < startOfDay n + 86400.
Proof.
  unfold startOfDay.
  pose proof (Z.div_mod n 86400 ltac:(lia)); pose proof (Z.mod_pos_bound n 86400 ltac:(lia)).
  lia.
Qed.

Lemma count_same_day (d : DB) (uid n n' : Z) :
  n' / 86400 = n / 86400 ->
  CountUserMessagesForToday d uid n' = CountUserMessagesForToday d uid n.
Proof. intro H; unfold CountUserMessagesForToday, startOfDay; now rewrite H. Qed.

Lemma count_append (d d' : DB) (uid n : Z) (c : MessageTransaction) :
  db_txs d' = db_txs d ++ [c] -> tx_UserID c = uid ->
  startOfDay n <= tx_CreatedAt c < startOfDay n + 86400 ->
  CountUserMessagesForToday d' uid n = CountUserMessagesForToday d uid n + 1.
Proof.
  intros Hd Hu Hc; unfold CountUserMessagesForToday; rewrite Hd, filter_app, length_app.
  simpl; rewrite Hu, Z.eqb_refl.
  replace (startOfDay n <=? tx_CreatedAt c) with true by (symmetry; apply Z.leb_le; lia).
  replace (tx_CreatedAt c <? startOfDay n + 86400) with true by (symmetry; apply Z.ltb_lt; lia).
  simpl; lia.
Qed.

Lemma selectProvider_found (d : DB) (req : MessageRequest) (ups : list UserProvider) :
  (exists up, In up ups /\ bothActive d up = true) ->
  exists p, providerGetByID d (up_ProviderID (selectProvider d req ups)) = Some p.
Proof.
  intros (up & Hin & Hup).
  assert (Hh : exists p, providerGetByID d
                 (up_ProviderID (match find (bothActive d) ups with
                                 | Some x => x | None => zeroUserProvider end)) = Some p).
  { destruct (find (bothActive d) ups) as [x|] eqn:E.
    - apply find_some in E; destruct E as [_ E]; unfold bothActive in E.
      destruct (providerGetByID d (up_ProviderID x)) as [p|]; [exists p; reflexivity|discriminate].
    - rewrite (find_none _ _ E up Hin) in Hup; discriminate. }
  unfold selectProvider; destruct (negb _); [|exact Hh].
  destruct (filter _ ups) as [|x xs] eqn:E; [exact Hh|].
  assert (Hx : In x (x :: xs)) by (left; reflexivity).
  rewrite <- E, filter_In in Hx; destruct Hx as [_ Hx].
  destruct (providerGetByID d (up_ProviderID x)) as [p|]; [exists p; reflexivity|discriminate].
Qed.

(** The registry part of the store: what [SendMessage] reads besides the
    active table. *)
Definition sameRegistry (d d' : DB) : Prop :=
  db_providers d' = db_providers d /\ db_userProviders d' = db_userProviders d /\
  db_users d' = db_users d.

Lemma SendMessage_accepts enc (req : MessageRequest) (w : World) (u : User) :
  userGetByID (w_db w) (req_UserID req) = Some u ->
  CountUserMessagesForToday (w_db w) (req_UserID req) (w_now w) < u_MessageRateLimit u ->
  (exists up, In up (GetUserProvidersByPriority (w_db w) (req_UserID req)) /\
              bothActive (w_db w) up = true) ->
  exists w', SendMessage enc req w =
    ((Some (mkResponse (db_nextTxID (w_db w)) "pending" "Message queued for processing"), None), w')
    /\ sameRegistry (w_db w) (w_db w') /\ w_now w' = w_now w /\
    exists c, db_txs (w_db w') = db_txs (w_db w) ++ [c] /\ tx_UserID c = req_UserID req /\
              tx_CreatedAt c = w_now w.
Proof.
  intros Hu Hc Hup.
  unfold SendMessage; rewrite Hu.
  replace (u_MessageRateLimit u <=? _) with false by (symmetry; apply Z.leb_gt; exact Hc).
  destruct (GetUserProvidersByPriority (w_db w) (req_UserID req)) as [|up0 ups] eqn:E;
    [destruct Hup as (? & [] & _)|].
  destruct (selectProvider_found (w_db w) req (up0 :: ups) Hup) as [p Hp]; rewrite Hp.
  unfold Create; cbv beta iota zeta.
  eexists; split; [reflexivity|].
  rewrite (proj1 (EnqueueMessage_keeps _ _)), (proj1 (proj2 (EnqueueMessage_keeps _ _))).
  split; [repeat split|]; split; [reflexivity|].
  eexists; split; [reflexivity|]; split; reflexivity.
Qed.

Lemma SendMessage_rejects enc (req : MessageRequest) (w : World) (u : User) :
  userGetByID (w_db w) (req_UserID req) = Some u ->
  u_MessageRateLimit u <= CountUserMessagesForToday (w_db w) (req_UserID req) (w_now w) ->
  SendMessage enc req w = ((None, Some ErrRateLimitExceeded), w).
Proof.
  intros Hu Hc; unfold SendMessage; rewrite Hu.
  replace (u_MessageRateLimit u <=? _) with true by (symmetry; apply Z.leb_le; exact Hc).
  reflexivity.
Qed.

Lemma sameRegistry_reads (d d' : DB) (uid : Z) :
  sameRegistry d d' ->
  userGetByID d' uid = userGetByID d uid /\
  GetUserProvidersByPriority d' uid = GetUserProvidersByPriority d uid /\
  bothActive d' = bothActive d.
Proof.
  intros (Hp & Hup & Hu); unfold userGetByID, GetUserProvidersByPriority, bothActive,
    providerGetByID; rewrite Hp, Hup, Hu; auto.
Qed.

Lemma SendMessage_step enc (req : MessageRequest) (w : World) (u : User) (n' : Z) :
  userGetByID (w_db w) (req_UserID req) = Some u ->
  CountUserMessagesForToday (w_db w) (req_UserID req) (w_now w) < u_MessageRateLimit u ->
  (exists up, In up (GetUserProvidersByPriority (w_db w) (req_UserID req)) /\
              bothActive (w_db w) up = true) ->
  n' / 86400 = w_now w / 86400 ->
  exists w', SendMessage enc req w =
    ((Some (mkResponse (db_nextTxID (w_db w)) "pending" "Message queued for processing"), None), w')
    /\ userGetByID (w_db w') (req_UserID req) = Some u /\
    CountUserMessagesForToday (w_db w') (req_UserID req) n' =
      CountUserMessagesForToday (w_db w) (req_UserID req) (w_now w) + 1 /\
    (exists up, In up (GetUserProvidersByPriority (w_db w') (req_UserID req)) /\
                bothActive (w_db w') up = true).
Proof.
  intros Hu Hc Hup Hday.
  destruct (SendMessage_accepts enc req w u Hu Hc Hup) as (w' & Hs & Hreg & Hnow & c & Htx & Hcu & Hct).
  exists w'; split; [exact Hs|].
  destruct (sameRegistry_reads _ _ (req_UserID req) Hreg) as (R1 & R2 & R3).
  rewrite R1, R2, R3; split; [exact Hu|]; split; [|exact Hup].
  rewrite (count_same_day _ _ _ _ Hday).
  apply (count_append _ _ _ _ c Htx Hcu); rewrite Hct; apply day_bounds.
Qed.

(** C4.  A user with [dailyMessageLimit = 3], no transaction created today
    and a usable binding (active binding of an active provider) submits four
    times within one UTC day: the first three answers are [{id, "pending"}],
    the fourth is the rate-limit error and leaves the state unchanged (no
    row).  The count is over the active table's rows of the user created in
    the current UTC day, and it is 3 at the fourth submission. *)
Theorem SendMessage_daily_limit_three enc (req : MessageRequest) (w : World) (u : User)
  (n2 n3 n4 : Z) :
  userGetByID (w_db w) (req_UserID req) = Some u ->
  u_MessageRateLimit u = 3 ->
  CountUserMessagesForToday (w_db w) (req_UserID req) (w_now w) = 0 ->
  (exists up, In up (GetUserProvidersByPriority (w_db w) (req_UserID req)) /\
              bothActive (w_db w) up = true) ->
  n2 / 86400 = w_now w / 86400 -> n3 / 86400 = w_now w / 86400 ->
  n4 / 86400 = w_now w / 86400 ->
  exists w1 w2 w3,
    SendMessage enc req w =
      ((Some (mkResponse (db_nextTxID (w_db w)) "pending" "Message queued for processing"), None), w1) /\
    SendMessage enc req (set_now n2 w1) =
      ((Some (mkResponse (db_nextTxID (w_db w1)) "pending" "Message queued for processing"), None), w2) /\
    SendMessage enc req (set_now n3 w2) =
      ((Some (mkResponse (db_nextTxID (w_db w2)) "pending" "Message queued for processing"), None), w3) /\
    SendMessage enc req (set_now n4 w3) = ((None, Some ErrRateLimitExceeded), set_now n4 w3) /\
    CountUserMessagesForToday (w_db w3) (req_UserID req) n4 = 3.
Proof.
  intros Hu Hl H0 Hup D2 D3 D4.
  destruct (SendMessage_step enc req w u n2 Hu ltac:(lia) Hup D2)
    as (w1 & S1 & U1 & C1 & P1).
  destruct (SendMessage_step enc req (set_now n2 w1) u n3 U1 ltac:(cbn [w_db w_now set_now]; lia) P1
              ltac:(cbn [w_db w_now set_now]; lia))
    as (w2 & S2 & U2 & C2 & P2).
  cbn [w_db w_now set_now] in C2.
  destruct (SendMessage_step enc req (set_now n3 w2) u n4 U2 ltac:(cbn [w_db w_now set_now]; lia) P2
              ltac:(cbn [w_db w_now set_now]; lia))
    as (w3 & S3 & U3 & C3 & P3).
  cbn [w_db w_now set_now] in C3.
  exists w1, w2, w3; split; [exact S1|]; split; [exact S2|]; split; [exact S3|].
  split; [apply (SendMessage_rejects enc req (set_now n4 w3) u U3); simpl; lia | lia].
Qed.

(** The scenario of the spec: user 7 (limit 3) submits four times at the
    same instant. *)
Lemma SendMessage_daily_limit_three_witness :
  exists w1 w2 w3,
    SendMessage fx_marshal fx_request fx_world =
      ((Some (mkResponse 1 "pending" "Message queued for processing"), None), w1) /\
    SendMessage fx_marshal fx_request (set_now fx_now w1) =
      ((Some (mkResponse (db_nextTxID (w_db w1)) "pending" "Message queued for processing"), None), w2) /\
    SendMessage fx_marshal fx_request (set_now fx_now w2) =
      ((Some (mkResponse (db_nextTxID (w_db w2)) "pending" "Message queued for processing"), None), w3) /\
    SendMessage fx_marshal fx_request (set_now fx_now w3) =
      ((None, Some ErrRateLimitExceeded), set_now fx_now w3) /\
    CountUserMessagesForToday (w_db w3) 7 fx_now = 3.
Proof.
  apply (SendMessage_daily_limit_three fx_marshal fx_request fx_world (mkUser 7 3));
    try reflexivity.
  exists (mkUserProvider 1 7 1 1 fx_hookConfig true); split; [vm_compute; left; reflexivity|].
  reflexivity.
Defined.

(** ** The retry planner's scan *)

Lemma skipn_cons_nth {A} (l : list A) (i : nat) (x : A) (r : list A) :
  skipn i l = x :: r -> nth_error l i = Some x /\ skipn (S i) l = r.
Proof.
  revert l; induction i as [|i IH]; intros [|a l] H; simpl in *; try discriminate.
  - injection H as -> ->; split; reflexivity.
  - exact (IH l H).
Qed.

Lemma skipn_nil_nth {A} (l : list A) (i j : nat) :
  skipn i l = [] -> (i <= j)%nat -> nth_error l j = None.
Proof.
  intros H Hij; apply nth_error_None.
  pose proof (length_skipn i l) as E; rewrite H in E; simpl in E; lia.
Qed.

Section RetryScan.
Variable failedMsg : MessageTransaction.
Variable all : list UserProvider.

Lemma retryScan_none (w : World) :
  forall rest i, skipn i all = rest ->
  (forall j b nx, (i <= j)%nat -> nth_error all j = Some b ->
     up_ProviderID b = tx_ProviderID failedMsg -> nth_error all (S j) = Some nx ->
     bothActive (w_db w) nx = false) ->
  retryScan failedMsg all rest i w = w.
Proof.
  induction rest as [|up rest IH]; intros i Hsk Hno; cbn [retryScan]; [reflexivity|].
  destruct (skipn_cons_nth _ _ _ _ Hsk) as [Hi Hsk'].
  assert (Hrec : retryScan failedMsg all rest (S i) w = w)
    by (apply IH; [exact Hsk'| intros j b nx Hj; apply Hno; lia]).
  destruct (up_ProviderID up =? tx_ProviderID failedMsg) eqn:E; [|exact Hrec].
  destruct (nth_error all (S i)) as [nx|] eqn:Enx; [|exact Hrec].
  pose proof (Hno i up nx (le_n i) Hi (proj1 (Z.eqb_eq _ _) E) Enx) as Hb.
  unfold bothActive in Hb.
  destruct (providerGetByID (w_db w) (up_ProviderID nx)) as [pd|]; [|exact Hrec].
  destruct (p_Status pd), (up_Status nx); try discriminate; exact Hrec.
Qed.

Lemma retryScan_found (w : World) (j : nat) (b nx : UserProvider) :
  nth_error all j = Some b -> up_ProviderID b = tx_ProviderID failedMsg ->
  nth_error all (S j) = Some nx -> bothActive (w_db w) nx = true ->
  forall rest i, skipn i all = rest -> (i <= j)%nat ->
  (forall k b' nx', (i <= k < j)%nat -> nth_error all k = Some b' ->
     up_ProviderID b' = tx_ProviderID failedMsg -> nth_error all (S k) = Some nx' ->
     bothActive (w_db w) nx' = false) ->
  retryScan failedMsg all rest i w =
    EnqueueMessage (fst (Create (w_db w) (retryTransaction failedMsg nx (w_now w))))
                   (set_db (snd (Create (w_db w) (retryTransaction failedMsg nx (w_now w)))) w).
Proof.
  intros Hb Hbp Hnx Hact.
  induction rest as [|up rest IH]; intros i Hsk Hij Hbefore.
  - rewrite (skipn_nil_nth _ _ _ Hsk Hij) in Hb; discriminate.
  - destruct (skipn_cons_nth _ _ _ _ Hsk) as [Hi Hsk'].
    destruct (Nat.eq_dec i j) as [->|Hne].
    + rewrite Hb in Hi; injection Hi as <-; cbn [retryScan].
      rewrite Hbp, Z.eqb_refl, Hnx.
      unfold bothActive in Hact.
      destruct (providerGetByID (w_db w) (up_ProviderID nx)) as [pd|]; [|discriminate].
      destruct (p_Status pd), (up_Status nx); try discriminate; reflexivity.
    + assert (Hrec : retryScan failedMsg all rest (S i) w =
        EnqueueMessage (fst (Create (w_db w) (retryTransaction failedMsg nx (w_now w))))
                       (set_db (snd (Create (w_db w) (retryTransaction failedMsg nx (w_now w)))) w))
        by (apply IH; [exact Hsk' | lia | intros k b' nx' Hk; apply Hbefore; lia]).
      cbn [retryScan].
      destruct (up_ProviderID up =? tx_ProviderID failedMsg) eqn:E; [|exact Hrec].
      destruct (nth_error all (S i)) as [nx'|] eqn:Enx; [|exact Hrec].
      pose proof (Hbefore i up nx' ltac:(lia) Hi (proj1 (Z.eqb_eq _ _) E) Enx) as Hoff.
      unfold bothActive in Hoff.
      destruct (providerGetByID (w_db w) (up_ProviderID nx')) as [pd|]; [|exact Hrec].
      destruct (p_Status pd), (up_Status nx'); try discriminate; exact Hrec.
Qed.

End RetryScan.

(** C5.  For a failed row picked up by the planner, with the user's active
    bindings in priority order [ups]: the planner stops at the first
    position [j] whose binding has the failed row's provider and whose next
    binding [j+1] exists with its provider present and active and itself
    active.  Exactly one row is then appended: pending, for the provider of
    binding [j+1], with [retryCount + 1], the same user, recipients and
    body, and it is enqueued.  Earlier bindings of the failed provider whose
    next binding is not usable are passed over.  When no binding of the
    failed provider is followed by a usable one, nothing changes. *)
Theorem retryOne_next_provider (w : World) (f : MessageTransaction) :
  let ups := GetUserProvidersByPriority (w_db w) (tx_UserID f) in
  (forall j b nx,
     nth_error ups j = Some b -> up_ProviderID b = tx_ProviderID f ->
     nth_error ups (S j) = Some nx -> bothActive (w_db w) nx = true ->
     (forall k b' nx', (k < j)%nat -> nth_error ups k = Some b' ->
        up_ProviderID b' = tx_ProviderID f -> nth_error ups (S k) = Some nx' ->
        bothActive (w_db w) nx' = false) ->
     exists c,
       db_txs (w_db (retryOne w f)) = db_txs (w_db w) ++ [c] /\
       tx_ProviderID c = up_ProviderID nx /\ tx_RetryCount c = tx_RetryCount f + 1 /\
       tx_UserID c = tx_UserID f /\ tx_Recipients c = tx_Recipients f /\
       tx_Message c = tx_Message f /\ tx_Status c = "pending"%string /\
       retryOne w f = EnqueueMessage c (set_db (w_db (retryOne w f)) w)) /\
  ((forall j b nx,
      nth_error ups j = Some b -> up_ProviderID b = tx_ProviderID f ->
      nth_error ups (S j) = Some nx -> bothActive (w_db w) nx = false) ->
   retryOne w f = w).
Proof.
  intros ups; split.
  - intros j b nx Hb Hbp Hnx Hact Hfirst.
    assert (Hr : retryOne w f =
      EnqueueMessage (fst (Create (w_db w) (retryTransaction f nx (w_now w))))
                     (set_db (snd (Create (w_db w) (retryTransaction f nx (w_now w)))) w)).
    { unfold retryOne; fold ups.
      destruct ups as [|u0 us] eqn:Eu; [destruct j; discriminate|].
      apply (retryScan_found f (u0 :: us) w j b nx Hb Hbp Hnx Hact (u0 :: us) 0);
        [reflexivity | lia|].
      intros k b' nx' Hk; apply Hfirst; lia. }
    rewrite Hr, (proj1 (EnqueueMessage_keeps _ _)).
    eexists; split; [reflexivity|].
    repeat split.
  - intro Hno; unfold retryOne; fold ups.
    destruct ups as [|u0 us] eqn:Eu; [reflexivity|].
    apply retryScan_none; [reflexivity|].
    intros j b nx _; apply Hno.
Qed.

(** User 7's message failed on Signal (provider 1): the retry goes to the
    email binding with retry count 1. *)
Lemma retryOne_next_provider_witness :
  let f := mkTx 1 7 1 "+15550100" "hi" "{}" "" "failed" "boom" 0 (Some fx_now) false None
                (fx_now - 200) (fx_now - 180) in
  let w := mkWorld (mkDB [f] [] fx_providers fx_userProviders [mkUser 7 3] 2 1) [] [] [] fx_now in
  exists c, db_txs (w_db (retryOne w f)) = db_txs (w_db w) ++ [c] /\
            tx_ProviderID c = 2 /\ tx_RetryCount c = 1.
Proof.
  intros f w.
  destruct (retryOne_next_provider w f) as [Hyes _].
  destruct (Hyes 0%nat (mkUserProvider 1 7 1 1 fx_hookConfig true)
              (mkUserProvider 2 7 2 2 "" true)) as (c & Hc & Hp & Hrc & _);
    [vm_compute; reflexivity .. | intros k b' nx' Hk; lia |].
  exists c; split; [exact Hc|]; split; [exact Hp | rewrite Hrc; reflexivity].
Defined.

(** C5 counterexample.  User 7 has two bindings on Signal (provider 1):
    priority order Signal, email (2), Signal, push (4), all active.  The
    second Signal binding is followed by the push binding, which is usable,
    yet the successor of a row that failed on Signal goes to email: the scan
    stops at the first Signal binding, whose next binding is usable. *)
Lemma retryOne_duplicate_binding :
  let f := mkTx 1 7 1 "+15550100" "hi" "{}" "" "failed" "boom" 0 (Some fx_now) false None
                (fx_now - 200) (fx_now - 180) in
  let ups := [mkUserProvider 1 7 1 1 "" true; mkUserProvider 2 7 2 2 "" true;
              mkUserProvider 3 7 1 3 "" true; mkUserProvider 4 7 4 4 "" true] in
  let provs := fx_providers ++ [mkProvider 4 "push" "push" true] in
  let w := mkWorld (mkDB [f] [] provs ups [mkUser 7 3] 2 1) [] [] [] fx_now in
  nth_error (GetUserProvidersByPriority (w_db w) 7) 2 = Some (mkUserProvider 3 7 1 3 "" true) /\
  nth_error (GetUserProvidersByPriority (w_db w) 7) 3 = Some (mkUserProvider 4 7 4 4 "" true) /\
  bothActive (w_db w) (mkUserProvider 4 7 4 4 "" true) = true /\
  exists c, db_txs (w_db (retryOne w f)) = db_txs (w_db w) ++ [c] /\ tx_ProviderID c = 2.
Proof.
  vm_compute; split; [reflexivity|]; split; [reflexivity|]; split; [reflexivity|].
  eexists; split; reflexivity.
Qed.

(** ** Two runs of the retry planner *)

(** A row with its id erased: two successors that differ only by their
    fresh ids are equal under [stripID]. *)
Definition stripID (t : MessageTransaction) : MessageTransaction :=
  mkTx 0 (tx_UserID t) (tx_ProviderID t) (tx_Recipients t) (tx_Message t) (tx_RequestData t)
       (tx_ResponseData t) (tx_Status t) (tx_ErrorMessage t) (tx_RetryCount t)
       (tx_NextRetryAt t) (tx_Processing t) (tx_ProcessedAt t) (tx_CreatedAt t) (tx_UpdatedAt t).

(** What the planner reads besides the active table. *)
Definition regEq (wa wb : World) : Prop :=
  db_providers (w_db wa) = db_providers (w_db wb) /\
  db_userProviders (w_db wa) = db_userProviders (w_db wb) /\ w_now wa = w_now wb.

Lemma regEq_trans (wa wb wc : World) : regEq wa wb -> regEq wb wc -> regEq wa wc.
Proof. intros (A1 & A2 & A3) (B1 & B2 & B3); repeat split; congruence. Qed.

Lemma regEq_sym (wa wb : World) : regEq wa wb -> regEq wb wa.
Proof. intros (A1 & A2 & A3); repeat split; congruence. Qed.

Definition isPending (t : MessageTransaction) : Prop := tx_Status t = "pending"%string.

(** Running the same code on two states with the same registry and clock
    appends the same rows up to their ids, all pending, and keeps the
    registry. *)
Definition sameEffect (wa ra wb rb : World) : Prop :=
  exists na nb,
    db_txs (w_db ra) = db_txs (w_db wa) ++ na /\ db_txs (w_db rb) = db_txs (w_db wb) ++ nb /\
    map stripID na = map stripID nb /\ Forall isPending na /\ Forall isPending nb /\
    regEq wa ra /\ regEq wb rb.

Lemma sameEffect_refl (wa wb : World) : sameEffect wa wa wb wb.
Proof.
  exists [], []; rewrite !app_nil_r; repeat split; constructor.
Qed.

Lemma sameEffect_trans (wa ra sa wb rb sb : World) :
  sameEffect wa ra wb rb -> sameEffect ra sa rb sb -> sameEffect wa sa wb sb.
Proof.
  intros (na & nb & Ha & Hb & Hs & Pa & Pb & Ra & Rb) (ma & mb & Ha' & Hb' & Hs' & Pa' & Pb' & Ra' & Rb').
  exists (na ++ ma), (nb ++ mb).
  rewrite Ha', Hb', Ha, Hb, !app_assoc.
  split; [reflexivity|]; split; [reflexivity|].
  rewrite !map_app, Hs, Hs'; split; [reflexivity|].
  split; [apply Forall_app; auto|]; split; [apply Forall_app; auto|].
  split; eapply regEq_trans; eauto.
Qed.

Lemma create_enqueue (t : MessageTransaction) (w : World) :
  let r := (let (created, d') := Create (w_db w) t in EnqueueMessage created (set_db d' w)) in
  db_txs (w_db r) = db_txs (w_db w) ++ [fst (Create (w_db w) t)] /\ regEq w r.
Proof.
  unfold Create; cbv beta iota zeta.
  unfold regEq; rewrite !(proj1 (EnqueueMessage_keeps _ _)).
  split; [reflexivity|]; split; [reflexivity|]; split; [reflexivity|].
  rewrite (proj1 (proj2 (EnqueueMessage_keeps _ _))); reflexivity.
Qed.

Lemma retryScan_sim (f : MessageTransaction) (all : list UserProvider) :
  forall rest i wa wb, regEq wa wb ->
  sameEffect wa (retryScan f all rest i wa) wb (retryScan f all rest i wb).
Proof.
  induction rest as [|up rest IH]; intros i wa wb Hr; cbn [retryScan];
    [apply sameEffect_refl|].
  destruct (up_ProviderID up =? tx_ProviderID f); [|apply IH; exact Hr].
  destruct (nth_error all (S i)) as [nx|]; [|apply IH; exact Hr].
  destruct Hr as (R1 & R2 & R3).
  unfold providerGetByID; rewrite R1; fold (providerGetByID (w_db wb) (up_ProviderID nx)).
  destruct (providerGetByID (w_db wb) (up_ProviderID nx)) as [pd|];
    [|apply IH; repeat split; assumption].
  destruct (negb (p_Status pd) || negb (up_Status nx)); [apply IH; repeat split; assumption|].
  rewrite R3.
  destruct (create_enqueue (retryTransaction f nx (w_now wb)) wa) as (Ea & Ka).
  destruct (create_enqueue (retryTransaction f nx (w_now wb)) wb) as (Eb & Kb).
  exists [fst (Create (w_db wa) (retryTransaction f nx (w_now wb)))],
         [fst (Create (w_db wb) (retryTransaction f nx (w_now wb)))].
  split; [exact Ea|]; split; [exact Eb|].
  split; [reflexivity|].
  split; [repeat constructor|]; split; [repeat constructor|].
  split; assumption.
Qed.

Lemma retryLoop_sim (rows : list MessageTransaction) :
  forall wa wb, regEq wa wb ->
  sameEffect wa (fold_left retryOne rows wa) wb (fold_left retryOne rows wb).
Proof.
  induction rows as [|f rows IH]; intros wa wb Hr; simpl; [apply sameEffect_refl|].
  assert (H1 : sameEffect wa (retryOne wa f) wb (retryOne wb f)).
  { unfold retryOne.
    destruct Hr as (R1 & R2 & R3).
    unfold GetUserProvidersByPriority; rewrite R2.
    fold (GetUserProvidersByPriority (w_db wb) (tx_UserID f)).
    destruct (GetUserProvidersByPriority (w_db wb) (tx_UserID f));
      [apply sameEffect_refl|].
    apply retryScan_sim; repeat split; assumption. }
  apply (sameEffect_trans _ _ _ _ _ _ H1).
  destruct H1 as (_ & _ & _ & _ & _ & _ & _ & Ra & Rb).
  apply IH; exact (regEq_trans _ _ _ (regEq_sym _ _ Ra) (regEq_trans _ _ _ Hr Rb)).
Qed.

Lemma failed_after_pending (d d' : DB) (n : list MessageTransaction) (now : Z) :
  db_txs d' = db_txs d ++ n -> Forall isPending n ->
  GetFailedMessagesForRetry d' now = GetFailedMessagesForRetry d now.
Proof.
  intros H Hn; unfold GetFailedMessagesForRetry; rewrite H, filter_app.
  replace (filter _ n) with (@nil MessageTransaction); [apply app_nil_r|].
  clear H; induction Hn as [|t n Ht _ IH]; simpl; [reflexivity|].
  unfold isPending in Ht; rewrite Ht; simpl; exact IH.
Qed.

(** C1 (as the code has it).  [RetryFailedMessages] neither updates nor
    archives the failed rows it revives; it only appends pending rows.  So
    the set of failed rows due for retry is the same after a run, and a
    second back-to-back run appends the same successors again (equal up to
    their fresh ids): every eligible failed row gets one more successor. *)
Theorem RetryFailedMessages_twice (w : World) :
  let w1 := RetryFailedMessages w in
  let w2 := RetryFailedMessages w1 in
  GetFailedMessagesForRetry (w_db w1) (w_now w1) = GetFailedMessagesForRetry (w_db w) (w_now w) /\
  exists n1 n2,
    db_txs (w_db w1) = db_txs (w_db w) ++ n1 /\
    db_txs (w_db w2) = db_txs (w_db w1) ++ n2 /\
    map stripID n2 = map stripID n1 /\ Forall isPending n1.
Proof.
  intros w1 w2.
  assert (Hrefl : regEq w w) by (repeat split).
  destruct (retryLoop_sim (GetFailedMessagesForRetry (w_db w) (w_now w)) w w Hrefl)
    as (n1 & _ & H1 & _ & _ & P1 & _ & R1 & _).
  fold (RetryFailedMessages w) in H1, R1; fold w1 in H1, R1.
  assert (Hf : GetFailedMessagesForRetry (w_db w1) (w_now w1) =
               GetFailedMessagesForRetry (w_db w) (w_now w)).
  { destruct R1 as (_ & _ & Rn); rewrite <- Rn.
    exact (failed_after_pending _ _ _ _ H1 P1). }
  split; [exact Hf|].
  destruct (retryLoop_sim (GetFailedMessagesForRetry (w_db w) (w_now w)) w w1 R1)
    as (m1 & n2 & Hm1 & H2 & Hs & _ & _ & _ & _).
  fold (RetryFailedMessages w) in Hm1; fold w1 in Hm1.
  rewrite H1 in Hm1; apply app_inv_head in Hm1; subst m1.
  exists n1, n2; split; [exact H1|]; split; [|split; [symmetry; exact Hs | exact P1]].
  subst w2; unfold RetryFailedMessages at 1; rewrite Hf; exact H2.
Qed.

(** C1 counterexample.  One failed Signal row of user 7, due for retry,
    and no other change: the first run appends a successor on the email
    provider; the failed set is the same afterwards, and the second run
    appends another successor. *)
Lemma RetryFailedMessages_second_run_adds_rows :
  let f := mkTx 1 7 1 "+15550100" "hi" "{}" "" "failed" "boom" 0 (Some fx_now) false None
                (fx_now - 200) (fx_now - 180) in
  let w := mkWorld (mkDB [f] [] fx_providers fx_userProviders [mkUser 7 3] 2 2)
                   [] [] [] fx_now in
  let w1 := RetryFailedMessages w in
  let w2 := RetryFailedMessages w1 in
  GetFailedMessagesForRetry (w_db w1) (w_now w1) = GetFailedMessagesForRetry (w_db w) (w_now w) /\
  List.length (db_txs (w_db w1)) = 2%nat /\ List.length (db_txs (w_db w2)) = 3%nat.
Proof. vm_compute; repeat split. Qed.

(** ** Archiving: history rows per outcome *)

Lemma update_archive (d : DB) (id : Z) (fs : list TxField) (now : Z) (t : MessageTransaction) :
  txGetByID d id = Some t ->
  exists h, db_history (MoveToHistory (Update d id fs now) id now) = db_history d ++ [h] /\
            h_MessageID h = id /\ h_Status h = tx_Status (touch now (fold_left applyField fs t)).
Proof.
  intro H.
  pose proof (Update_lookup d id fs now t H) as HU.
  eexists; split; [rewrite (MoveToHistory_found _ _ _ _ HU); reflexivity|].
  simpl; split; [|reflexivity].
  unfold touch; simpl; destruct (applyFields_keep fs t) as (-> & _).
  exact (txGetByID_id _ _ _ H).
Qed.

Lemma processMessage_archives_once dec sreq ssend nf (msg : MessageTransaction) (w : World)
  (t : MessageTransaction) :
  txGetByID (w_db w) (tx_ID msg) = Some t ->
  exists h, db_history (w_db (processMessage dec sreq ssend nf msg w)) = db_history (w_db w) ++ [h] /\
            h_MessageID h = tx_ID msg /\
            (h_Status h = "success"%string \/ h_Status h = "failed"%string).
Proof.
  intro Ht.
  assert (Hf : forall e, exists h,
             db_history (w_db (updateMessageStatus (tx_ID msg) "failed" e "" w)) =
             db_history (w_db w) ++ [h] /\ h_MessageID h = tx_ID msg /\
             (h_Status h = "success"%string \/ h_Status h = "failed"%string)).
  { intro e; destruct (updateMessageStatus_failed (tx_ID msg) e w t Ht)
      as (_ & _ & _ & _ & _ & _ & h & Eh & Ih & Sh).
    exists h; auto. }
  unfold processMessage.
  destruct (providerGetByID (w_db w) (tx_ProviderID msg)) as [p|]; [|apply Hf].
  destruct (negb (p_Status p)); [apply Hf|].
  destruct (dispatchProvider sreq ssend p msg) as [[rq [e|]] rd];
    rewrite (proj1 (sendWebhookNotification_keeps _ _ _ _ _ _)); cbn [w_db set_db].
  - destruct (update_archive (w_db w) (tx_ID msg)
                [FRequestData rq; FProcessing false; FStatus "failed"; FErrorMessage e;
                 FResponseData ""; FNextRetryAt (w_now w + retryBackoff)] (w_now w) t Ht)
      as (h & Eh & Ih & Sh).
    exists h; split; [exact Eh|]; split; [exact Ih|]; right; rewrite Sh; reflexivity.
  - destruct (update_archive (w_db w) (tx_ID msg)
                [FRequestData rq; FProcessing false; FStatus "success"; FResponseData rd;
                 FErrorMessage ""] (w_now w) t Ht)
      as (h & Eh & Ih & Sh).
    exists h; split; [exact Eh|]; split; [exact Ih|]; left; rewrite Sh; reflexivity.
Qed.

Lemma undeliveredStep_archives_once (w : World) (msg t : MessageTransaction) (up : UserProvider) :
  txGetByID (w_db w) (tx_ID msg) = Some t ->
  find (fun up => negb (up_ProviderID up =? tx_ProviderID msg))
       (GetUserProvidersByPriority (w_db w) (tx_UserID msg)) = Some up ->
  exists h, db_history (w_db (undeliveredStep w msg)) = db_history (w_db w) ++ [h] /\
            h_MessageID h = tx_ID msg /\ h_Status h = "fallback_triggered"%string.
Proof.
  intros Ht Hf; unfold undeliveredStep; rewrite Hf.
  unfold Create; cbv beta iota zeta.
  rewrite (proj1 (EnqueueFallback_keeps _ _)); cbn [w_db set_db].
  lazymatch goal with
  | |- context [MoveToHistory (Update ?d ?i ?fs ?n) _ _] =>
      assert (Hd : txGetByID d (tx_ID msg) = Some t)
        by (unfold txGetByID; cbn [db_txs]; apply find_app_some; exact Ht);
      destruct (update_archive d i fs n t Hd) as (h & Eh & Ih & Sh)
  end.
  exists h; split; [exact Eh|]; split; [exact Ih|]; rewrite Sh; reflexivity.
Qed.

(** C2 (as the code has it).  Each outcome of the worker on a stored
    transaction appends exactly one history row with [MessageID] = its id
    and status success or failed (the provider-not-usable path included);
    each Pass B flip of a success row appends one more, with status
    fallback_triggered, and removes nothing.  So a transaction that reached
    success and was later flipped by Pass B has two history rows. *)
Theorem history_rows_per_outcome :
  (forall dec sreq ssend nf (msg : MessageTransaction) (w : World) (t : MessageTransaction),
     txGetByID (w_db w) (tx_ID msg) = Some t ->
     exists h, db_history (w_db (processMessage dec sreq ssend nf msg w)) =
                 db_history (w_db w) ++ [h] /\
               h_MessageID h = tx_ID msg /\
               (h_Status h = "success"%string \/ h_Status h = "failed"%string)) /\
  (forall (w : World) (msg t : MessageTransaction) (up : UserProvider),
     txGetByID (w_db w) (tx_ID msg) = Some t ->
     find (fun up => negb (up_ProviderID up =? tx_ProviderID msg))
          (GetUserProvidersByPriority (w_db w) (tx_UserID msg)) = Some up ->
     exists h, db_history (w_db (undeliveredStep w msg)) = db_history (w_db w) ++ [h] /\
               h_MessageID h = tx_ID msg /\ h_Status h = "fallback_triggered"%string).
Proof.
  split; [exact processMessage_archives_once | exact undeliveredStep_archives_once].
Qed.

(** C2 counterexample.  User 7 submits; the worker delivers through Signal
    and archives the success; 400 seconds later Pass B flips the row to
    fallback_triggered and archives it again: transaction 1 has two history
    rows. *)
Lemma history_twice_after_fallback :
  let w1 := snd (SendMessage fx_marshal fx_request fx_world) in
  let w2 := workerStep fx_decode fx_signalRequest fx_signalOk fx_notFound w1 in
  let w3 := checkUndeliveredMessages (set_now (fx_now + 400) w2) in
  map h_Status (filter (fun h => h_MessageID h =? 1) (db_history (w_db w3))) =
    ["success"%string; "fallback_triggered"%string].
Proof. vm_compute; reflexivity. Qed.

(** ** Webhook recipients *)

(** The URL [sendWebhookNotification] posts to for one binding, if any:
    non-empty config that decodes, with the webhook enabled and a
    non-empty URL.  The binding's own status is not looked at. *)
Definition webhookTarget (decode : string -> option WebhookConfig) (up : UserProvider)
  : option string :=
  if negb (String.eqb (up_Config up) "") then
    match decode (up_Config up) with
    | Some config =>
        if Enabled config && negb (String.eqb (WebhookURL config) "")
        then Some (WebhookURL config) else None
    | None => None
    end
  else None.

Fixpoint webhookTargets (decode : string -> option WebhookConfig) (ups : list UserProvider)
  : list string :=
  match ups with
  | [] => []
  | up :: ups' =>
      match webhookTarget decode up with
      | Some url => url :: webhookTargets decode ups'
      | None => webhookTargets decode ups'
      end
  end.

Lemma webhook_fold_posts dec uid mid st e (ups : list UserProvider) :
  forall w : World,
  w_posts (fold_left (webhookStep dec uid mid st e) ups w) =
  w_posts w ++ map (fun url => (url, mkPayload mid uid st (w_now w)
                                      (if String.eqb e "" then None else Some e)))
                   (webhookTargets dec ups).
Proof.
  induction ups as [|up ups IH]; intro w; simpl; [symmetry; apply app_nil_r|].
  rewrite IH; unfold webhookStep, webhookTarget.
  destruct (negb (String.eqb (up_Config up) "")); [|reflexivity].
  destruct (dec (up_Config up)) as [c|]; [|reflexivity].
  destruct (Enabled c && negb (String.eqb (WebhookURL c) "")); [|reflexivity].
  simpl; rewrite <- app_assoc; reflexivity.
Qed.

Lemma processMessage_db_userProviders (d : DB) (id : Z) (fs : list TxField) (now : Z) :
  db_userProviders (MoveToHistory (Update d id fs now) id now) = db_userProviders d.
Proof. rewrite (proj1 (proj2 (MoveToHistory_registry _ _ _))); reflexivity. Qed.

(** C8 (as the code has it).  When the worker has sent through an active
    provider (success, or a send error), the POSTs it starts are one per
    binding of the user in table order, active or not ([GetUserProviders]
    has no status filter), whose config is non-empty, decodes, has the
    webhook enabled and a non-empty URL; each body carries the message id,
    the user id, the status, the timestamp, and an error only when the
    error message is non-empty.  (When the provider is missing or
    inactive no POST starts at all: see C7.) *)
Theorem processMessage_webhook_posts dec sreq ssend nf (msg : MessageTransaction) (w : World)
  (p : Provider) :
  providerGetByID (w_db w) (tx_ProviderID msg) = Some p -> p_Status p = true ->
  let sendErr := snd (fst (dispatchProvider sreq ssend p msg)) in
  let status := match sendErr with Some _ => "failed"%string | None => "success"%string end in
  let errorMessage := match sendErr with Some e => e | None => ""%string end in
  w_posts (processMessage dec sreq ssend nf msg w) =
  w_posts w ++
    map (fun url => (url, mkPayload (tx_ID msg) (tx_UserID msg) status (w_now w)
                            (if String.eqb errorMessage "" then None else Some errorMessage)))
        (webhookTargets dec (filter (fun up => up_UserID up =? tx_UserID msg)
                                    (db_userProviders (w_db w)))).
Proof.
  intros Hp Hs; cbv zeta.
  unfold processMessage; cbv zeta; rewrite Hp, Hs; cbn [negb].
  destruct (dispatchProvider sreq ssend p msg) as [[rq [e|]] rd]; cbn [fst snd];
    unfold sendWebhookNotification; rewrite webhook_fold_posts;
    unfold GetUserProviders; cbn [w_posts w_now w_db set_db];
    rewrite processMessage_db_userProviders; reflexivity.
Qed.

(** User 7's Signal transaction is delivered: one POST, to the webhook of
    the Signal binding, with status success and no error. *)
Lemma processMessage_webhook_posts_witness :
  let msg := mkTx 1 7 1 "+15550100" "hi" "" "" "pending" "" 0 None false None fx_now fx_now in
  let w := mkWorld (mkDB [msg] [] fx_providers fx_userProviders [mkUser 7 3] 2 1)
                   [] [] [] fx_now in
  providerGetByID (w_db w) 1 = Some (mkProvider 1 "signal-main" "signal" true) /\
  w_posts (processMessage fx_decode fx_signalRequest fx_signalOk fx_notFound msg w) =
    [("https://hook.example/cb"%string, mkPayload 1 7 "success" fx_now None)].
Proof.
  intros msg w; split; [reflexivity|].
  rewrite (processMessage_webhook_posts fx_decode fx_signalRequest fx_signalOk fx_notFound msg w
             (mkProvider 1 "signal-main" "signal" true) eq_refl eq_refl).
  vm_compute; reflexivity.
Defined.

(** C8 counterexample.  User 9 has a single binding, inactive, whose config
    enables a webhook; the worker delivers the user's Signal transaction and
    starts a POST to that binding's URL although the user has no active
    binding. *)
Lemma processMessage_posts_to_inactive_binding :
  let ups := [mkUserProvider 5 9 1 1 fx_hookConfig false] in
  let msg := mkTx 1 9 1 "+15550100" "hi" "" "" "pending" "" 0 None false None fx_now fx_now in
  let w := mkWorld (mkDB [msg] [] fx_providers ups [mkUser 9 3] 2 1) [] [] [] fx_now in
  filter up_Status (GetUserProviders (w_db w) 9) = [] /\
  w_posts (processMessage fx_decode fx_signalRequest fx_signalOk fx_notFound msg w) =
    [("https://hook.example/cb"%string, mkPayload 1 9 "success" fx_now None)].
Proof. vm_compute; split; reflexivity. Qed.

(** * Further operations of the message pipeline *)

(** ** [MessageTransactionRepository.GetPendingMessages] *)

(** [WHERE status = 'pending' AND processing = false]. *)
Definition isPendingUnlocked (t : MessageTransaction) : bool :=
  String.eqb (tx_Status t) "pending" && negb (tx_Processing t).

(** [Limit(1000)]. *)
Definition pendingLimit : nat := 1000.

(** The lock of [Updates({"processing": true, "processed_at": now})] on
    [WHERE id IN (ids)]; gorm also sets [updated_at]. *)
Definition lockRow (ids : list Z) (now : Z) (t : MessageTransaction) : MessageTransaction :=
  if existsb (fun i => tx_ID t =? i) ids then
    mkTx (tx_ID t) (tx_UserID t) (tx_ProviderID t) (tx_Recipients t) (tx_Message t)
         (tx_RequestData t) (tx_ResponseData t) (tx_Status t) (tx_ErrorMessage t)
         (tx_RetryCount t) (tx_NextRetryAt t) true (Some now) (tx_CreatedAt t) now
  else t.

(** Rows are read, then locked, in one database transaction; the rows
    returned are the ones read (before the lock).  [LIMIT] without
    [ORDER BY] leaves the choice of rows to the database: the model takes
    them in table order. *)
Definition GetPendingMessages (d : DB) (now : Z) : list MessageTransaction * DB :=
  let messageTransactions := firstn pendingLimit (filter isPendingUnlocked (db_txs d)) in
  match messageTransactions with
  | [] => ([], d)
  | _ :: _ =>
      let messageIDs := map tx_ID messageTransactions in
      (messageTransactions,
       mkDB (map (lockRow messageIDs now) (db_txs d)) (db_history d) (db_providers d)
            (db_userProviders d) (db_users d) (db_nextTxID d) (db_nextHistID d))
  end.

(** ** [MessageProcessor.checkPendingMessages] *)

(** The loop body: [select { case p.messageQueue <- &msg: default: warn }].
    [&msg] is the address of the range variable: from Go 1.22 on each
    iteration has its own variable, before that all iterations share one.
    The model enqueues the row read, as the per-iteration variable does. *)
Definition pendingEnqueue (w : World) (msg : MessageTransaction) : World :=
  if Nat.ltb (List.length (w_queue w)) queueCapacity
  then set_queue (w_queue w ++ [msg]) w
  else add_warning "Message queue is full, skipping message" w.

Definition checkPendingMessages (w : World) : World :=
  let (pendingMessages, d') := GetPendingMessages (w_db w) (w_now w) in
  match pendingMessages with
  | [] => w
  | _ :: _ => fold_left pendingEnqueue pendingMessages (set_db d' w)
  end.

(** ** [MessageUseCase.GetMessageStatus] *)

Record MessageStatusResponse := mkStatusResponse {
  st_ID : Z;
  st_Status : string;
  st_Message : string;
  st_Recipients : string;
  st_ErrorMessage : string;
  st_RetryCount : Z;
  st_CreatedAt : Z;
  st_UpdatedAt : Z
}.

(** The [domainErrors] types the repositories return. *)
Inductive AppErrorType := NotFound | ResourceAlreadyExists | UnknownError.

Definition GetMessageStatus (d : DB) (id : Z)
  : option MessageStatusResponse * option AppErrorType :=
  match txGetByID d id with
  | None => (None, Some NotFound)
  | Some t =>
      (Some (mkStatusResponse (tx_ID t) (tx_Status t) (tx_Message t) (tx_Recipients t)
               (tx_ErrorMessage t) (tx_RetryCount t) (tx_CreatedAt t) (tx_UpdatedAt t)),
       None)
  end.

(** ** [SendController]: the HTTP handlers around the use case *)

(** What a handler writes: a status code with a JSON body, or a run-time
    panic (nil pointer dereference). *)
Inductive ReplyBody :=
| BodyError (s : string)
| BodyValidation (fields : list string)
| BodyMessage (r : MessageResponse)
| BodyStatus (r : MessageStatusResponse).

Inductive HttpReply :=
| Reply (code : Z) (body : ReplyBody)
| NilPointerPanic.

(** [SendController.Message] after the request is bound: an error gives
    500; otherwise it reads [useCaseResponse.ID], which dereferences the
    pointer. *)
Definition messageReply (r : option MessageResponse * option SendError) : HttpReply :=
  match r with
  | (_, Some _) => Reply 500 (BodyError "Error sending message")
  | (Some resp, None) =>
      Reply 202 (BodyMessage (mkResponse (resp_ID resp) (resp_Status resp) (resp_Message resp)))
  | (None, None) => NilPointerPanic
  end.

(** The JSON body of [POST /send] as [ShouldBindJSON] decodes it into the
    controller's [MessageRequest] ([SendDTO.go]): [b_Recipients] is [None]
    when the field is absent or null (a nil slice), [Some rs] otherwise (an
    empty array gives [Some []]).  A body that is not valid JSON is not
    modelled. *)
Record SendBody := mkSendBody {
  b_Type : string;
  b_Message : string;
  b_Recipients : option (list string);
  b_UserID : Z
}.

(** The fields failing [binding:"required"], in struct order and under
    their json tags as [AppendValidationErrors] reports them: a string must
    be non-empty, a slice non-nil, an int non-zero. *)
Definition requiredFieldErrors (b : SendBody) : list string :=
  (if String.eqb (b_Type b) "" then ["type"%string] else []) ++
  (if String.eqb (b_Message b) "" then ["message"%string] else []) ++
  (match b_Recipients b with None => ["recipients"%string] | Some _ => [] end) ++
  (if b_UserID b =? 0 then ["user_id"%string] else []).

(** [SendController.Message]: a validation error is answered with 400 and
    the failing fields (the per-field messages are not modelled); otherwise
    the bound request goes to [SendMessage]. *)
Definition MessageHandler (enc : list string -> string) (b : SendBody) (w : World)
  : HttpReply * World :=
  match requiredFieldErrors b with
  | [] =>
      let req := mkRequest (b_Type b) (b_Message b)
                   (match b_Recipients b with Some rs => rs | None => [] end) (b_UserID b) in
      let (r, w') := SendMessage enc req w in (messageReply r, w')
  | errs => (Reply 400 (BodyValidation errs), w)
  end.

(** [SendController.GetMessageStatus] after the URI is bound (the RFC 3339
    formatting of the two times is not modelled). *)
Definition GetMessageStatusHandler (d : DB) (id : Z) : HttpReply :=
  match GetMessageStatus d id with
  | (_, Some _) => Reply 500 (BodyError "Error getting message status")
  | (Some r, None) => Reply 200 (BodyStatus r)
  | (None, None) => NilPointerPanic
  end.

(** ** [Delete] of the provider and user-provider repositories *)

(** [DB.Delete(&Provider{}, id)]: [DELETE WHERE id = ?] (no soft delete, no
    cascade); [RowsAffected == 0] gives [NotFound]. *)
Definition providerDelete (d : DB) (id : Z) : DB * option AppErrorType :=
  let kept := filter (fun p => negb (p_ID p =? id)) (db_providers d) in
  let d' := mkDB (db_txs d) (db_history d) kept (db_userProviders d) (db_users d)
                 (db_nextTxID d) (db_nextHistID d) in
  if Nat.eqb (List.length kept) (List.length (db_providers d))
  then (d', Some NotFound) else (d', None).

Definition userProviderDelete (d : DB) (id : Z) : DB * option AppErrorType :=
  let kept := filter (fun up => negb (up_ID up =? id)) (db_userProviders d) in
  let d' := mkDB (db_txs d) (db_history d) (db_providers d) kept (db_users d)
                 (db_nextTxID d) (db_nextHistID d) in
  if Nat.eqb (List.length kept) (List.length (db_userProviders d))
  then (d', Some NotFound) else (d', None).

(** ** Properties of the further operations *)

Lemma Forall2_map_self {A} (R : A -> A -> Prop) (f : A -> A) (l : list A) :
  (forall x, In x l -> R x (f x)) -> Forall2 R l (map f l).
Proof.
  induction l as [|x l IH]; intro H; simpl; constructor.
  - apply H; left; reflexivity.
  - apply IH; intros y Hy; apply H; right; exact Hy.
Qed.

Lemma In_firstn {A} (n : nat) (l : list A) (x : A) : In x (firstn n l) -> In x l.
Proof. intro H; rewrite <- (firstn_skipn n l); apply in_or_app; left; exact H. Qed.

Lemma isPendingUnlocked_true (t : MessageTransaction) :
  isPendingUnlocked t = true <-> tx_Status t = "pending"%string /\ tx_Processing t = false.
Proof.
  unfold isPendingUnlocked; rewrite andb_true_iff, String.eqb_eq, negb_true_iff; tauto.
Qed.

Lemma GetPendingMessages_spec (d : DB) (now : Z) :
  let (sel, d') := GetPendingMessages d now in
  (List.length sel <= pendingLimit)%nat /\
  (forall t, In t sel ->
     In t (db_txs d) /\ tx_Status t = "pending"%string /\ tx_Processing t = false) /\
  ((List.length (filter isPendingUnlocked (db_txs d)) <= pendingLimit)%nat ->
     sel = filter isPendingUnlocked (db_txs d)) /\
  Forall2 (fun t t' =>
             if existsb (fun i => tx_ID t =? i) (map tx_ID sel)
             then tx_ID t' = tx_ID t /\ tx_Status t' = tx_Status t /\
                  tx_Processing t' = true /\ tx_ProcessedAt t' = Some now
             else t' = t)
          (db_txs d) (db_txs d') /\
  db_history d' = db_history d /\ db_providers d' = db_providers d /\
  db_userProviders d' = db_userProviders d /\ db_users d' = db_users d /\
  db_nextTxID d' = db_nextTxID d.
Proof.
  unfold GetPendingMessages.
  assert (Hsel : forall t, In t (firstn pendingLimit (filter isPendingUnlocked (db_txs d))) ->
                 In t (db_txs d) /\ tx_Status t = "pending"%string /\ tx_Processing t = false).
  { intros t Ht; apply In_firstn in Ht; apply filter_In in Ht as [Hin Hp].
    apply isPendingUnlocked_true in Hp; tauto. }
  assert (Hall : (List.length (filter isPendingUnlocked (db_txs d)) <= pendingLimit)%nat ->
                 firstn pendingLimit (filter isPendingUnlocked (db_txs d)) =
                 filter isPendingUnlocked (db_txs d)) by apply firstn_all2.
  pose proof (firstn_le_length pendingLimit (filter isPendingUnlocked (db_txs d))) as Hlen.
  destruct (firstn pendingLimit (filter isPendingUnlocked (db_txs d))) as [|x xs] eqn:E.
  - split; [exact Hlen|]; split; [exact Hsel|]; split; [exact Hall|].
    split; [|repeat split].
    clear; induction (db_txs d) as [|t l IH]; constructor; [reflexivity | exact IH].
  - split; [exact Hlen|]; split; [exact Hsel|]; split; [exact Hall|].
    split; [|repeat split]; cbn [db_txs].
    apply Forall2_map_self; intros t _; unfold lockRow.
    destruct (existsb _ _); [repeat split | reflexivity].
Qed.

Lemma Forall2_In_r {A B} (R : A -> B -> Prop) (l : list A) (l' : list B) (y : B) :
  Forall2 R l l' -> In y l' -> exists x, In x l /\ R x y.
Proof.
  induction 1 as [|x y' l l' Hr _ IH]; intros Hy; [destruct Hy|].
  destruct Hy as [<-|Hy]; [exists x; split; [left|]; auto|].
  destruct (IH Hy) as (z & Hz & Rz); exists z; split; [right|]; auto.
Qed.

Lemma existsb_id_in (ids : list Z) (x : Z) :
  In x ids -> existsb (fun i => x =? i) ids = true.
Proof. intro H; apply existsb_exists; exists x; split; [exact H | apply Z.eqb_refl]. Qed.

(** Two calls of [GetPendingMessages] one after the other never hand out
    the same transaction id twice: the rows of the first call are locked,
    and the second call only returns unlocked rows. *)
Theorem GetPendingMessages_no_row_twice (d : DB) (now now' : Z) :
  let (s1, d1) := GetPendingMessages d now in
  let (s2, d2) := GetPendingMessages d1 now' in
  forall t1 t2, In t1 s1 -> In t2 s2 -> tx_ID t1 <> tx_ID t2.
Proof.
  pose proof (GetPendingMessages_spec d now) as H1.
  destruct (GetPendingMessages d now) as [s1 d1].
  pose proof (GetPendingMessages_spec d1 now') as H2.
  destruct (GetPendingMessages d1 now') as [s2 d2].
  destruct H1 as (_ & _ & _ & F1 & _); destruct H2 as (_ & S2 & _).
  intros t1 t2 Ht1 Ht2 Heq.
  destruct (S2 t2 Ht2) as (Hin & _ & Hp).
  destruct (Forall2_In_r _ _ _ _ F1 Hin) as (t & _ & Rt).
  assert (Hid : In (tx_ID t1) (map tx_ID s1)) by (apply in_map; exact Ht1).
  destruct (existsb (fun i => tx_ID t =? i) (map tx_ID s1)) eqn:E.
  - destruct Rt as (_ & _ & Hp' & _); congruence.
  - subst t2; rewrite <- Heq, existsb_id_in in E; [discriminate | exact Hid].
Qed.

Lemma GetPendingMessages_nil (d : DB) (now : Z) :
  fst (GetPendingMessages d now) = [] -> snd (GetPendingMessages d now) = d.
Proof.
  unfold GetPendingMessages; destruct (firstn _ _); [reflexivity | discriminate].
Qed.

Lemma pendingEnqueue_loop (l : list MessageTransaction) :
  forall w, (List.length (w_queue w) <= queueCapacity)%nat ->
  let w' := fold_left pendingEnqueue l w in
  w_db w' = w_db w /\ w_now w' = w_now w /\
  List.length (w_queue w') = Nat.min queueCapacity (List.length (w_queue w) + List.length l) /\
  List.length (w_warnings w') =
    (List.length (w_warnings w) + (List.length (w_queue w) + List.length l - queueCapacity))%nat /\
  (queueCapacity <= List.length (w_queue w) -> w_queue w' = w_queue w)%nat.
Proof.
  induction l as [|m l IH]; intros w Hq; cbn [fold_left List.length].
  - repeat split; try lia; intros; reflexivity.
  - destruct (Nat.ltb (List.length (w_queue w)) queueCapacity) eqn:E.
    + replace (pendingEnqueue w m) with (set_queue (w_queue w ++ [m]) w)
        by (unfold pendingEnqueue; rewrite E; reflexivity).
      apply Nat.ltb_lt in E.
      destruct (IH (set_queue (w_queue w ++ [m]) w)) as (D & N & Q & W & F);
        [cbn [w_queue set_queue]; rewrite length_app; cbn [List.length]; lia|].
      cbn [w_db w_now w_queue w_warnings set_queue] in D, N, Q, W.
      rewrite length_app in Q, W; cbn [List.length] in Q, W.
      repeat split; [exact D | exact N | lia | lia | intro; lia].
    + replace (pendingEnqueue w m) with
        (add_warning "Message queue is full, skipping message" w)
        by (unfold pendingEnqueue; rewrite E; reflexivity).
      apply Nat.ltb_ge in E.
      destruct (IH (add_warning "Message queue is full, skipping message" w)) as (D & N & Q & W & F);
        [cbn [w_queue add_warning]; lia|].
      cbn [w_db w_now w_queue w_warnings add_warning] in D, N, Q, W, F.
      rewrite length_app in W; cbn [List.length] in W.
      repeat split; [exact D | exact N | lia | lia | intro; apply F; lia].
Qed.

Lemma pendingEnqueue_loop_rows (l : list MessageTransaction) :
  forall w, (List.length (w_queue w) <= queueCapacity)%nat ->
  let w' := fold_left pendingEnqueue l w in
  w_queue w' = w_queue w ++ firstn (queueCapacity - List.length (w_queue w)) l /\
  w_warnings w' = w_warnings w ++
    repeat "Message queue is full, skipping message"%string
           (List.length (w_queue w) + List.length l - queueCapacity).
Proof.
  induction l as [|m l IH]; intros w Hq; cbn [fold_left List.length].
  - rewrite firstn_nil, app_nil_r.
    replace (List.length (w_queue w) + 0 - queueCapacity)%nat with 0%nat by lia.
    rewrite app_nil_r; split; reflexivity.
  - destruct (Nat.ltb (List.length (w_queue w)) queueCapacity) eqn:E.
    + replace (pendingEnqueue w m) with (set_queue (w_queue w ++ [m]) w)
        by (unfold pendingEnqueue; rewrite E; reflexivity).
      apply Nat.ltb_lt in E.
      destruct (IH (set_queue (w_queue w ++ [m]) w)) as (Q & W);
        [cbn [w_queue set_queue]; rewrite length_app; cbn [List.length]; lia|].
      cbn [w_queue w_warnings set_queue] in Q, W.
      rewrite length_app in Q, W; cbn [List.length] in Q, W.
      replace (queueCapacity - List.length (w_queue w))%nat
        with (S (queueCapacity - (List.length (w_queue w) + 1)))%nat by lia.
      cbn [firstn]; rewrite Q, <- app_assoc; split; [reflexivity|].
      rewrite W; do 2 f_equal; lia.
    + replace (pendingEnqueue w m) with
        (add_warning "Message queue is full, skipping message" w)
        by (unfold pendingEnqueue; rewrite E; reflexivity).
      apply Nat.ltb_ge in E.
      destruct (IH (add_warning "Message queue is full, skipping message" w)) as (Q & W);
        [cbn [w_queue add_warning]; lia|].
      cbn [w_queue w_warnings add_warning] in Q, W.
      replace (queueCapacity - List.length (w_queue w))%nat with 0%nat in * by lia.
      cbn [firstn] in Q |- *; split; [exact Q|].
      rewrite W, <- app_assoc.
      replace (List.length (w_queue w) + S (List.length l) - queueCapacity)%nat
        with (S (List.length (w_queue w) + List.length l - queueCapacity)) by lia.
      reflexivity.
Qed.

(** [checkPendingMessages]: the database afterwards is the one left by
    [GetPendingMessages] (the read rows locked); the old queue is kept
    and, after it, the first rows read are enqueued in the order read, as
    many as the queue has room for (it never grows past its capacity of
    100); each row read that does not fit adds one warning.  The entries
    are the rows as read, as with Go 1.22's per-iteration loop variable. *)
Theorem checkPendingMessages_enqueues (w : World) :
  (List.length (w_queue w) <= queueCapacity)%nat ->
  let sel := fst (GetPendingMessages (w_db w) (w_now w)) in
  let w' := checkPendingMessages w in
  w_db w' = snd (GetPendingMessages (w_db w) (w_now w)) /\
  w_queue w' = w_queue w ++ firstn (queueCapacity - List.length (w_queue w)) sel /\
  List.length (w_queue w') = Nat.min queueCapacity (List.length (w_queue w) + List.length sel) /\
  w_warnings w' = w_warnings w ++
    repeat "Message queue is full, skipping message"%string
           (List.length (w_queue w) + List.length sel - queueCapacity).
Proof.
  intros Hq sel w'; subst sel w'; unfold checkPendingMessages.
  pose proof (GetPendingMessages_nil (w_db w) (w_now w)) as Hn.
  destruct (GetPendingMessages (w_db w) (w_now w)) as [sel d'] eqn:E; cbn [fst snd] in *.
  destruct sel as [|m l].
  - rewrite Hn by reflexivity; cbn [List.length]; rewrite firstn_nil, !app_nil_r.
    replace (List.length (w_queue w) + 0 - queueCapacity)%nat with 0%nat by lia.
    rewrite app_nil_r; repeat split; lia.
  - destruct (pendingEnqueue_loop (m :: l) (set_db d' w) Hq) as (D & _ & Q & _ & _).
    destruct (pendingEnqueue_loop_rows (m :: l) (set_db d' w) Hq) as (R & W).
    repeat split; assumption.
Qed.

Lemma NoDup_map_inj {A B} (f : A -> B) (l : list A) (x y : A) :
  NoDup (map f l) -> In x l -> In y l -> f x = f y -> x = y.
Proof.
  induction l as [|a l IH]; intros Hnd Hx Hy Hf; [destruct Hx|].
  inversion Hnd as [|b m Hnot Hnd' E]; subst.
  destruct Hx as [<-|Hx]; destruct Hy as [<-|Hy]; auto.
  - exfalso; apply Hnot; rewrite Hf; apply in_map; exact Hy.
  - exfalso; apply Hnot; rewrite <- Hf; apply in_map; exact Hx.
Qed.

(** With the queue full, [checkPendingMessages] still locks the rows it
    reads but enqueues none of them.  Those rows stay pending with
    processing true, so none of the scanner's selections returns them
    again: [GetPendingMessages] wants processing false, the retry planner
    wants failed, Pass B wants success (ids are a primary key). *)
Theorem checkPendingMessages_full_queue_strands (w : World) :
  NoDup (map tx_ID (db_txs (w_db w))) ->
  List.length (w_queue w) = queueCapacity ->
  let sel := fst (GetPendingMessages (w_db w) (w_now w)) in
  let w' := checkPendingMessages w in
  w_queue w' = w_queue w /\
  forall t', In t' (db_txs (w_db w')) -> In (tx_ID t') (map tx_ID sel) ->
    tx_Status t' = "pending"%string /\ tx_Processing t' = true /\
    isPendingUnlocked t' = false /\
    (forall n, ~ In t' (GetFailedMessagesForRetry (w_db w') n)) /\
    (forall n, ~ In t' (GetUndeliveredMessages (w_db w') n)).
Proof.
  intros Hnd Hfull sel w'; subst sel w'.
  pose proof (GetPendingMessages_spec (w_db w) (w_now w)) as Hs.
  pose proof (GetPendingMessages_nil (w_db w) (w_now w)) as Hn.
  unfold checkPendingMessages.
  destruct (GetPendingMessages (w_db w) (w_now w)) as [sel d'] eqn:E; cbn [fst snd] in *.
  destruct Hs as (_ & Hsel & _ & F & _).
  assert (Hrow : forall t', In t' (db_txs d') -> In (tx_ID t') (map tx_ID sel) ->
                 tx_Status t' = "pending"%string /\ tx_Processing t' = true).
  { intros t' Hin Hid.
    destruct (Forall2_In_r _ _ _ _ F Hin) as (t & Ht & Rt).
    destruct (existsb (fun i => tx_ID t =? i) (map tx_ID sel)) eqn:Ex.
    - destruct Rt as (Ei & Es & Ep & _).
      apply existsb_exists in Ex as (i & Hi & Ei'); apply Z.eqb_eq in Ei'; subst i.
      apply in_map_iff in Hi as (s & Es' & Hs).
      destruct (Hsel s Hs) as (Hs' & Ps & _).
      assert (t = s) by (apply (NoDup_map_inj tx_ID _ _ _ Hnd Ht Hs'); congruence).
      subst s; split; congruence.
    - subst t'; rewrite existsb_id_in in Ex; [discriminate | exact Hid]. }
  assert (Hout : forall t', In t' (db_txs d') -> In (tx_ID t') (map tx_ID sel) ->
    tx_Status t' = "pending"%string /\ tx_Processing t' = true /\
    isPendingUnlocked t' = false /\
    (forall n, ~ In t' (GetFailedMessagesForRetry d' n)) /\
    (forall n, ~ In t' (GetUndeliveredMessages d' n))).
  { intros t' Hin Hid; destruct (Hrow t' Hin Hid) as (Es & Ep).
    split; [exact Es|]; split; [exact Ep|].
    split; [unfold isPendingUnlocked; rewrite Ep, andb_false_r; reflexivity|].
    split; intros n Hf; apply filter_In in Hf as [_ Hf]; rewrite Es in Hf; discriminate. }
  destruct sel as [|m l].
  - split; [reflexivity|]; intros t' _ Hid; destruct Hid.
  - destruct (pendingEnqueue_loop (m :: l) (set_db d' w)
                ltac:(cbn [w_queue set_db]; lia)) as (D & _ & _ & _ & Fq).
    split; [apply Fq; cbn [w_queue set_db]; lia|].
    rewrite D; exact Hout.
Qed.

(** The row [SendMessage] stores, with the provider id it selected. *)
Definition submittedRow (enc : list string -> string) (req : MessageRequest) (w : World)
  (pid : Z) : MessageTransaction :=
  mkTx (db_nextTxID (w_db w)) (req_UserID req) pid (enc (req_Recipients req)) (req_Message req)
       "" "" "pending" "" 0 None false None (w_now w) (w_now w).

Lemma SendMessage_ok_inv enc (req : MessageRequest) (w w1 : World) (r : MessageResponse) :
  SendMessage enc req w = ((Some r, None), w1) ->
  exists pid,
    r = mkResponse (db_nextTxID (w_db w)) "pending" "Message queued for processing" /\
    w1 = EnqueueMessage (submittedRow enc req w pid)
           (set_db (mkDB (db_txs (w_db w) ++ [submittedRow enc req w pid]) (db_history (w_db w))
                         (db_providers (w_db w)) (db_userProviders (w_db w)) (db_users (w_db w))
                         (db_nextTxID (w_db w) + 1) (db_nextHistID (w_db w))) w).
Proof.
  unfold SendMessage.
  destruct (userGetByID (w_db w) (req_UserID req)) as [u|]; [|discriminate].
  destruct (u_MessageRateLimit u <=? _); [discriminate|].
  destruct (GetUserProvidersByPriority (w_db w) (req_UserID req)) as [|u0 us]; [discriminate|].
  destruct (providerGetByID _ _) as [p|]; [|discriminate].
  unfold Create; cbv beta iota zeta.
  intro H; injection H as Hr Hw; subst.
  eexists; split; reflexivity.
Qed.

(** Right after [SendMessage] accepts a request, the row it stored is
    still pending with processing false, so the next
    [checkPendingMessages] reads it and enqueues it a second time: with no
    other unlocked pending row and room in the queue, the queue ends with
    the same transaction twice, and the worker will process it twice. *)
Theorem SendMessage_then_checkPendingMessages_enqueues_twice enc (req : MessageRequest)
  (w w1 : World) (r : MessageResponse) :
  filter isPendingUnlocked (db_txs (w_db w)) = [] ->
  (List.length (w_queue w) + 2 <= queueCapacity)%nat ->
  SendMessage enc req w = ((Some r, None), w1) ->
  exists c, tx_ID c = resp_ID r /\ tx_Status c = "pending"%string /\
            w_queue (checkPendingMessages w1) = w_queue w ++ [c; c].
Proof.
  intros Hnone Hroom Hs.
  destruct (SendMessage_ok_inv enc req w w1 r Hs) as (pid & -> & ->).
  set (c := submittedRow enc req w pid).
  exists c; split; [reflexivity|]; split; [reflexivity|].
  unfold EnqueueMessage at 1.
  replace (Nat.ltb (List.length (w_queue (set_db _ w))) queueCapacity) with true
    by (symmetry; apply Nat.ltb_lt; cbn [w_queue set_db]; lia).
  unfold checkPendingMessages, GetPendingMessages.
  cbn [w_db w_queue w_now set_queue set_db db_txs].
  rewrite filter_app, Hnone.
  replace (filter isPendingUnlocked [c]) with [c] by reflexivity.
  cbn [app firstn pendingLimit].
  replace (firstn pendingLimit [c]) with [c] by reflexivity.
  cbn [fold_left].
  unfold pendingEnqueue.
  replace (Nat.ltb _ queueCapacity) with true
    by (symmetry; apply Nat.ltb_lt; cbn [w_queue set_queue set_db]; rewrite length_app;
        cbn [List.length]; lia).
  cbn [w_queue set_queue set_db]; rewrite <- app_assoc; reflexivity.
Qed.

(** [GET /message/:id/status]: right after [SendMessage] accepts a request
    (ids below the id counter, as the auto-increment keeps them), the
    status of the returned id is 200 with status pending, the submitted
    body and recipients, no error and retry count 0; an id never issued
    (at or above the counter) gets 500 "Error getting message status",
    not a 404. *)
Theorem GetMessageStatusHandler_after_submit enc (req : MessageRequest) (w w1 : World)
  (r : MessageResponse) :
  Forall (fun t => tx_ID t < db_nextTxID (w_db w)) (db_txs (w_db w)) ->
  SendMessage enc req w = ((Some r, None), w1) ->
  GetMessageStatusHandler (w_db w1) (resp_ID r) =
    Reply 200 (BodyStatus (mkStatusResponse (resp_ID r) "pending" (req_Message req)
                             (enc (req_Recipients req)) "" 0 (w_now w) (w_now w))) /\
  forall id, db_nextTxID (w_db w1) <= id ->
    GetMessageStatusHandler (w_db w1) id = Reply 500 (BodyError "Error getting message status").
Proof.
  intros Hids Hs.
  destruct (SendMessage_ok_inv enc req w w1 r Hs) as (pid & -> & ->).
  rewrite (proj1 (EnqueueMessage_keeps _ _)); cbn [w_db set_db resp_ID db_nextTxID].
  split.
  - unfold GetMessageStatusHandler, GetMessageStatus, txGetByID; cbn [db_txs].
    rewrite find_app_none by (apply find_id_fresh; exact Hids).
    cbn [find]; rewrite Z.eqb_refl; reflexivity.
  - intros id Hid.
    unfold GetMessageStatusHandler, GetMessageStatus, txGetByID; cbn [db_txs].
    rewrite find_id_fresh; [reflexivity|].
    apply Forall_app; split.
    + eapply Forall_impl; [|exact Hids]; intros t Ht; cbv beta in Ht |- *; cbn in Hid; lia.
    + constructor; [cbn; lia | constructor].
Qed.

Lemma processMessage_sent dec sreq ssend nf (msg : MessageTransaction) (w : World)
  (p : Provider) (t : MessageTransaction) rq se rd :
  providerGetByID (w_db w) (tx_ProviderID msg) = Some p -> p_Status p = true ->
  dispatchProvider sreq ssend p msg = (rq, se, rd) ->
  txGetByID (w_db w) (tx_ID msg) = Some t ->
  let w' := processMessage dec sreq ssend nf msg w in
  let st := match se with Some _ => "failed"%string | None => "success"%string end in
  let e := match se with Some e => e | None => ""%string end in
  txGetByID (w_db w') (tx_ID msg) =
    Some (touch (w_now w) (fold_left applyField
      (match se with
       | Some e => [FRequestData rq; FProcessing false; FStatus "failed"; FErrorMessage e;
                    FResponseData ""; FNextRetryAt (w_now w + retryBackoff)]
       | None => [FRequestData rq; FProcessing false; FStatus "success"; FResponseData rd;
                  FErrorMessage ""]
       end) t)) /\
  exists urls, w_posts w' = w_posts w ++
    map (fun url => (url, mkPayload (tx_ID msg) (tx_UserID msg) st (w_now w)
                            (if String.eqb e "" then None else Some e))) urls.
Proof.
  intros Hp Ha Hd Ht; cbv zeta.
  unfold processMessage; rewrite Hp, Ha; cbn [negb]; rewrite Hd.
  destruct se as [e|]; cbv beta iota zeta.
  - split.
    + rewrite (proj1 (sendWebhookNotification_keeps _ _ _ _ _ _)); cbn [w_db set_db].
      rewrite MoveToHistory_lookup; apply Update_lookup; exact Ht.
    + unfold sendWebhookNotification; rewrite webhook_fold_posts.
      eexists; reflexivity.
  - split.
    + rewrite (proj1 (sendWebhookNotification_keeps _ _ _ _ _ _)); cbn [w_db set_db].
      rewrite MoveToHistory_lookup; apply Update_lookup; exact Ht.
    + unfold sendWebhookNotification; rewrite webhook_fold_posts.
      eexists; reflexivity.
Qed.

Lemma txGetByID_In (d : DB) (id : Z) (t : MessageTransaction) :
  txGetByID d id = Some t -> In t (db_txs d).
Proof. unfold txGetByID; intro H; exact (proj1 (find_some _ _ H)). Qed.

Lemma processMessage_signal_spec dec sreq ssend nf (msg : MessageTransaction) (w : World)
  (p : Provider) (t : MessageTransaction) :
  providerGetByID (w_db w) (tx_ProviderID msg) = Some p -> p_Status p = true ->
  p_Type p = "signal"%string ->
  txGetByID (w_db w) (tx_ID msg) = Some t ->
  let w' := processMessage dec sreq ssend nf msg w in
  exists t', txGetByID (w_db w') (tx_ID msg) = Some t' /\
    tx_Status t' = "success"%string /\ tx_ErrorMessage t' = ""%string /\
    tx_Processing t' = false /\ tx_UpdatedAt t' = w_now w /\
    tx_RequestData t' = sreq msg /\
    tx_ResponseData t' = match ssend msg with SendV2Ok (Some data) => data | _ => ""%string end /\
    tx_NextRetryAt t' = tx_NextRetryAt t /\
    (forall n, In t' (GetFailedMessagesForRetry (w_db w') n) -> False) /\
    (forall n, In t' (GetUndeliveredMessages (w_db w') n) <-> w_now w + 300 <= n) /\
    exists urls, w_posts w' = w_posts w ++
      map (fun url => (url, mkPayload (tx_ID msg) (tx_UserID msg) "success" (w_now w) None)) urls.
Proof.
  intros Hp Ha Hty Ht w'.
  assert (Hd : dispatchProvider sreq ssend p msg =
               (sreq msg, None, match ssend msg with SendV2Ok (Some data) => data | _ => ""%string end))
    by (unfold dispatchProvider; rewrite Hty; reflexivity).
  destruct (processMessage_sent dec sreq ssend nf msg w p t _ _ _ Hp Ha Hd Ht) as [Hl Hpost].
  fold w' in Hl, Hpost.
  eexists; split; [exact Hl|].
  cbn [fold_left applyField touch tx_Status tx_ErrorMessage tx_Processing tx_UpdatedAt
       tx_RequestData tx_ResponseData tx_NextRetryAt].
  do 7 (split; [reflexivity|]).
  apply txGetByID_In in Hl.
  split; [|split].
  - intros n Hin; unfold GetFailedMessagesForRetry in Hin; apply filter_In in Hin.
    destruct Hin as [_ Hf]; cbn in Hf; discriminate.
  - intro n; unfold GetUndeliveredMessages; rewrite filter_In.
    cbn [fold_left applyField touch tx_Status tx_Processing tx_UpdatedAt].
    replace (String.eqb "success" "success") with true by reflexivity; cbn [andb negb].
    rewrite Z.leb_le; split; [intros [_ H]; lia | intro H; split; [exact Hl | lia]].
  - exact Hpost.
Qed.

(** Worker, Signal provider: for an active provider of type "signal" and a
    stored row, [processMessage] marks the row success with an empty error
    message, processing false and [updated_at] = now, whatever the Signal
    client's [SendV2] returns (the inner [sendErr :=] shadows the outer
    one): a refused send only leaves [response_data] empty.  The row is
    never picked up by the failed-retry scan, and it is picked up by the
    undelivered scan exactly from now + 5 minutes on.  Every webhook POST
    started carries status "success" and no error field. *)
Theorem processMessage_signal_always_success dec sreq ssend nf (msg : MessageTransaction)
  (w : World) (p : Provider) (t : MessageTransaction) :
  providerGetByID (w_db w) (tx_ProviderID msg) = Some p -> p_Status p = true ->
  p_Type p = "signal"%string ->
  txGetByID (w_db w) (tx_ID msg) = Some t ->
  let w' := processMessage dec sreq ssend nf msg w in
  exists t', txGetByID (w_db w') (tx_ID msg) = Some t' /\
    tx_Status t' = "success"%string /\ tx_ErrorMessage t' = ""%string /\
    tx_Processing t' = false /\ tx_UpdatedAt t' = w_now w /\
    tx_RequestData t' = sreq msg /\
    tx_ResponseData t' = match ssend msg with SendV2Ok (Some data) => data | _ => ""%string end /\
    tx_NextRetryAt t' = tx_NextRetryAt t /\
    (forall n, In t' (GetFailedMessagesForRetry (w_db w') n) -> False) /\
    (forall n, In t' (GetUndeliveredMessages (w_db w') n) <-> w_now w + 300 <= n) /\
    exists urls, w_posts w' = w_posts w ++
      map (fun url => (url, mkPayload (tx_ID msg) (tx_UserID msg) "success" (w_now w) None)) urls.
Proof. exact (processMessage_signal_spec dec sreq ssend nf msg w p t). Qed.

Definition nonSignalError (ty : string) : string :=
  if String.eqb ty "email" then "email provider not implemented yet"
  else ("unsupported provider type: " ++ ty)%string.

Lemma processMessage_nonsignal_spec dec sreq ssend nf (msg : MessageTransaction) (w : World)
  (p : Provider) (t : MessageTransaction) :
  providerGetByID (w_db w) (tx_ProviderID msg) = Some p -> p_Status p = true ->
  p_Type p <> "signal"%string ->
  txGetByID (w_db w) (tx_ID msg) = Some t ->
  let w' := processMessage dec sreq ssend nf msg w in
  exists t', txGetByID (w_db w') (tx_ID msg) = Some t' /\
    tx_Status t' = "failed"%string /\ tx_ErrorMessage t' = nonSignalError (p_Type p) /\
    tx_Processing t' = false /\ tx_RequestData t' = ""%string /\
    tx_ResponseData t' = ""%string /\
    tx_NextRetryAt t' = Some (w_now w + retryBackoff) /\
    (forall n, In t' (GetFailedMessagesForRetry (w_db w') n) <-> w_now w + retryBackoff <= n) /\
    exists urls, w_posts w' = w_posts w ++
      map (fun url => (url, mkPayload (tx_ID msg) (tx_UserID msg) "failed" (w_now w)
                              (Some (nonSignalError (p_Type p))))) urls.
Proof.
  intros Hp Ha Hty Ht w'.
  assert (Hd : dispatchProvider sreq ssend p msg =
               (""%string, Some (nonSignalError (p_Type p)), ""%string)).
  { unfold dispatchProvider, nonSignalError.
    replace (String.eqb (p_Type p) "signal") with false
      by (symmetry; apply String.eqb_neq; exact Hty).
    destruct (String.eqb (p_Type p) "email"); reflexivity. }
  destruct (processMessage_sent dec sreq ssend nf msg w p t _ _ _ Hp Ha Hd Ht) as [Hl Hpost].
  fold w' in Hl, Hpost.
  replace (String.eqb (nonSignalError (p_Type p)) "") with false in Hpost
    by (unfold nonSignalError; destruct (String.eqb (p_Type p) "email"); reflexivity).
  eexists; split; [exact Hl|].
  cbn [fold_left applyField touch tx_Status tx_ErrorMessage tx_Processing tx_UpdatedAt
       tx_RequestData tx_ResponseData tx_NextRetryAt].
  do 6 (split; [reflexivity|]).
  apply txGetByID_In in Hl.
  split; [|exact Hpost].
  intro n; unfold GetFailedMessagesForRetry; rewrite filter_In.
  cbn [fold_left applyField touch tx_Status tx_NextRetryAt].
  replace (String.eqb "failed" "failed") with true by reflexivity; cbn [andb].
  rewrite Z.leb_le; split; [intros [_ H]; exact H | intro H; split; [exact Hl | exact H]].
Qed.

(** Worker, other provider types: for an active provider whose type is not
    "signal", [processMessage] marks the stored row failed with "email
    provider not implemented yet" (type "email") or "unsupported provider
    type: <type>", processing false, empty request and response data, and
    [next_retry_at] = now + 3 minutes; the failed-retry scan picks it up
    exactly from that instant on.  Every webhook POST started carries
    status "failed" and that error. *)
Theorem processMessage_non_signal_fails dec sreq ssend nf (msg : MessageTransaction)
  (w : World) (p : Provider) (t : MessageTransaction) :
  providerGetByID (w_db w) (tx_ProviderID msg) = Some p -> p_Status p = true ->
  p_Type p <> "signal"%string ->
  txGetByID (w_db w) (tx_ID msg) = Some t ->
  let w' := processMessage dec sreq ssend nf msg w in
  exists t', txGetByID (w_db w') (tx_ID msg) = Some t' /\
    tx_Status t' = "failed"%string /\ tx_ErrorMessage t' = nonSignalError (p_Type p) /\
    tx_Processing t' = false /\ tx_RequestData t' = ""%string /\
    tx_ResponseData t' = ""%string /\
    tx_NextRetryAt t' = Some (w_now w + retryBackoff) /\
    (forall n, In t' (GetFailedMessagesForRetry (w_db w') n) <-> w_now w + retryBackoff <= n) /\
    exists urls, w_posts w' = w_posts w ++
      map (fun url => (url, mkPayload (tx_ID msg) (tx_UserID msg) "failed" (w_now w)
                              (Some (nonSignalError (p_Type p))))) urls.
Proof. exact (processMessage_nonsignal_spec dec sreq ssend nf msg w p t). Qed.

(** ** Provider ordering and selection *)

Definition prioLe (a b : UserProvider) : Prop := up_Priority a <= up_Priority b.

Lemma insertByPriority_HdRel (x y : UserProvider) (l : list UserProvider) :
  HdRel prioLe y l -> up_Priority y <= up_Priority x -> HdRel prioLe y (insertByPriority x l).
Proof.
  destruct l as [|z l]; cbn [insertByPriority]; intros H Hyx.
  - constructor; exact Hyx.
  - destruct (up_Priority z <=? up_Priority x).
    + constructor; inversion H; assumption.
    + constructor; exact Hyx.
Qed.

Lemma insertByPriority_sorted (x : UserProvider) (l : list UserProvider) :
  Sorted prioLe l -> Sorted prioLe (insertByPriority x l).
Proof.
  induction l as [|y l IH]; cbn [insertByPriority]; intro H.
  - repeat constructor.
  - destruct (up_Priority y <=? up_Priority x) eqn:E.
    + apply Sorted_inv in H as [Hl Hh].
      constructor; [exact (IH Hl)|].
      apply insertByPriority_HdRel; [exact Hh | apply Z.leb_le; exact E].
    + constructor; [exact H|]; constructor.
      apply Z.leb_gt in E; unfold prioLe; lia.
Qed.

Lemma insertByPriority_perm (x : UserProvider) (l : list UserProvider) :
  Permutation (insertByPriority x l) (x :: l).
Proof.
  induction l as [|y l IH]; cbn [insertByPriority]; [reflexivity|].
  destruct (up_Priority y <=? up_Priority x); [|reflexivity].
  transitivity (y :: x :: l); [constructor; exact IH | constructor].
Qed.

Lemma sortByPriority_fold (l acc : list UserProvider) :
  Sorted prioLe acc ->
  Sorted prioLe (fold_left (fun acc x => insertByPriority x acc) l acc) /\
  Permutation (fold_left (fun acc x => insertByPriority x acc) l acc) (l ++ acc).
Proof.
  revert acc; induction l as [|x l IH]; intros acc H; cbn [fold_left app].
  - split; [exact H | reflexivity].
  - destruct (IH (insertByPriority x acc) (insertByPriority_sorted x acc H)) as [Hs Hp].
    split; [exact Hs|].
    rewrite Hp, (insertByPriority_perm x acc).
    symmetry; apply Permutation_middle.
Qed.

Lemma GetUserProvidersByPriority_spec (d : DB) (uid : Z) :
  Sorted prioLe (GetUserProvidersByPriority d uid) /\
  Permutation (GetUserProvidersByPriority d uid)
              (filter (fun up => (up_UserID up =? uid) && up_Status up) (db_userProviders d)).
Proof.
  unfold GetUserProvidersByPriority, sortByPriority.
  destruct (sortByPriority_fold
              (filter (fun up => (up_UserID up =? uid) && up_Status up) (db_userProviders d))
              [] (Sorted_nil _)) as [Hs Hp].
  split; [exact Hs|]; rewrite app_nil_r in Hp; exact Hp.
Qed.

Lemma GetUserProvidersByPriority_In (d : DB) (uid : Z) (up : UserProvider) :
  In up (GetUserProvidersByPriority d uid) ->
  In up (db_userProviders d) /\ up_UserID up = uid /\ up_Status up = true.
Proof.
  intro H.
  apply (Permutation_in _ (proj2 (GetUserProvidersByPriority_spec d uid))) in H.
  apply filter_In in H; destruct H as [H Hb].
  apply andb_prop in Hb; destruct Hb as [Hu Hs].
  split; [exact H|]; split; [apply Z.eqb_eq; exact Hu | exact Hs].
Qed.

Lemma find_sorted_min (P : UserProvider -> bool) (l : list UserProvider) (x : UserProvider) :
  Sorted prioLe l -> find P l = Some x ->
  In x l /\ P x = true /\ forall y, In y l -> P y = true -> up_Priority x <= up_Priority y.
Proof.
  intros Hs Hf.
  assert (Hss : StronglySorted prioLe l)
    by (apply Sorted_StronglySorted; [intros a b c; unfold prioLe; lia | exact Hs]).
  clear Hs; induction Hss as [|z l Hl IH Hall]; cbn [find] in Hf; [discriminate|].
  destruct (P z) eqn:E.
  - injection Hf as <-; split; [left; reflexivity|]; split; [exact E|].
    intros y [<-|Hy] _; [lia|].
    rewrite Forall_forall in Hall; exact (Hall y Hy).
  - destruct (IH Hf) as (Hin & Hx & Hmin).
    split; [right; exact Hin|]; split; [exact Hx|].
    intros y [<-|Hy] Py; [rewrite E in Py; discriminate | exact (Hmin y Hy Py)].
Qed.

Lemma filter_head_find {A : Type} (P : A -> bool) (l : list A) (x : A) (xs : list A) :
  filter P l = x :: xs -> find P l = Some x.
Proof.
  induction l as [|y l IH]; cbn [filter find]; [discriminate|].
  destruct (P y); [intro H; injection H as -> _; reflexivity | exact IH].
Qed.

(** The type filter of [selectProvider] (lines 143-160). *)
Definition typeUsable (d : DB) (ty : string) (up : UserProvider) : bool :=
  match providerGetByID d (up_ProviderID up) with
  | Some p => String.eqb (p_Type p) ty && p_Status p && up_Status up
  | None => false
  end.

Lemma selectProvider_eq (d : DB) (req : MessageRequest) (ups : list UserProvider) :
  selectProvider d req ups =
  let highest := match find (bothActive d) ups with Some up => up | None => zeroUserProvider end in
  if negb (String.eqb (req_Type req) "") then
    match filter (typeUsable d (req_Type req)) ups with up :: _ => up | [] => highest end
  else highest.
Proof. reflexivity. Qed.

Lemma SendMessage_selected enc (req : MessageRequest) (w : World) (u : User) (p : Provider) :
  userGetByID (w_db w) (req_UserID req) = Some u ->
  CountUserMessagesForToday (w_db w) (req_UserID req) (w_now w) < u_MessageRateLimit u ->
  GetUserProvidersByPriority (w_db w) (req_UserID req) <> [] ->
  providerGetByID (w_db w) (up_ProviderID (selectProvider (w_db w) req
      (GetUserProvidersByPriority (w_db w) (req_UserID req)))) = Some p ->
  let pid := up_ProviderID (selectProvider (w_db w) req
               (GetUserProvidersByPriority (w_db w) (req_UserID req))) in
  exists w1, SendMessage enc req w =
    ((Some (mkResponse (db_nextTxID (w_db w)) "pending" "Message queued for processing"), None), w1)
    /\ db_txs (w_db w1) = db_txs (w_db w) ++ [submittedRow enc req w pid].
Proof.
  intros Hu Hc Hne Hp pid; subst pid.
  unfold SendMessage; rewrite Hu.
  replace (u_MessageRateLimit u <=? _) with false by (symmetry; apply Z.leb_gt; exact Hc).
  destruct (GetUserProvidersByPriority (w_db w) (req_UserID req)) as [|up0 ups];
    [contradiction|].
  rewrite Hp; unfold Create; cbv beta iota zeta.
  eexists; split; [reflexivity|].
  rewrite (proj1 (EnqueueMessage_keeps _ _)); reflexivity.
Qed.

Lemma SendMessage_type_hint_spec enc (req : MessageRequest) (w : World) (u : User)
  (up' : UserProvider) (p' : Provider) :
  userGetByID (w_db w) (req_UserID req) = Some u ->
  CountUserMessagesForToday (w_db w) (req_UserID req) (w_now w) < u_MessageRateLimit u ->
  req_Type req <> ""%string ->
  In up' (GetUserProvidersByPriority (w_db w) (req_UserID req)) ->
  providerGetByID (w_db w) (up_ProviderID up') = Some p' ->
  p_Type p' = req_Type req -> p_Status p' = true ->
  let ups := GetUserProvidersByPriority (w_db w) (req_UserID req) in
  exists up p w1,
    SendMessage enc req w =
      ((Some (mkResponse (db_nextTxID (w_db w)) "pending" "Message queued for processing"), None), w1)
    /\ db_txs (w_db w1) = db_txs (w_db w) ++ [submittedRow enc req w (up_ProviderID up)]
    /\ In up ups /\ providerGetByID (w_db w) (up_ProviderID up) = Some p
    /\ p_Type p = req_Type req /\ p_Status p = true
    /\ forall up2 p2, In up2 ups -> providerGetByID (w_db w) (up_ProviderID up2) = Some p2 ->
         p_Type p2 = req_Type req -> p_Status p2 = true -> up_Priority up <= up_Priority up2.
Proof.
  intros Hu Hc Hty Hin Hp' Ht' Hs' ups.
  assert (Hm' : typeUsable (w_db w) (req_Type req) up' = true).
  { unfold typeUsable; rewrite Hp', Ht', Hs', String.eqb_refl.
    rewrite (proj2 (proj2 (GetUserProvidersByPriority_In _ _ _ Hin))); reflexivity. }
  destruct (filter (typeUsable (w_db w) (req_Type req)) ups) as [|x xs] eqn:Ef.
  { assert (Hx : In up' (filter (typeUsable (w_db w) (req_Type req)) ups))
      by (apply filter_In; split; assumption).
    rewrite Ef in Hx; destruct Hx. }
  assert (Hsel : selectProvider (w_db w) req ups = x).
  { rewrite selectProvider_eq; cbv zeta.
    replace (negb (String.eqb (req_Type req) "")) with true
      by (symmetry; apply negb_true_iff, String.eqb_neq; exact Hty).
    rewrite Ef; reflexivity. }
  destruct (find_sorted_min _ ups x (proj1 (GetUserProvidersByPriority_spec _ _))
              (filter_head_find _ _ _ _ Ef)) as (Hxin & Hx & Hmin).
  unfold typeUsable in Hx.
  destruct (providerGetByID (w_db w) (up_ProviderID x)) as [p|] eqn:Ep; [|discriminate].
  apply andb_prop in Hx; destruct Hx as [Hx _]; apply andb_prop in Hx; destruct Hx as [Hx Hps].
  apply String.eqb_eq in Hx.
  destruct (SendMessage_selected enc req w u p Hu Hc
              ltac:(intro E; rewrite E in Hin; destruct Hin)
              ltac:(fold ups; rewrite Hsel; exact Ep)) as (w1 & Hs & Htx).
  fold ups in Htx; rewrite Hsel in Htx.
  exists x, p, w1; split; [exact Hs|]; split; [exact Htx|].
  split; [exact Hxin|]; split; [exact Ep|]; split; [exact Hx|]; split; [exact Hps|].
  intros up2 p2 Hin2 Hp2 Ht2 Hs2; apply Hmin; [exact Hin2|].
  unfold typeUsable; rewrite Hp2, Ht2, Hs2, String.eqb_refl.
  rewrite (proj2 (proj2 (GetUserProvidersByPriority_In _ _ _ Hin2))); reflexivity.
Qed.

(** [SendMessage] with a provider type: when the user has an active
    binding to an active provider of the requested type, the request is
    accepted and the stored row goes to such a provider, through the
    binding of lowest priority number among those of that type. *)
Theorem SendMessage_type_hint enc (req : MessageRequest) (w : World) (u : User)
  (up' : UserProvider) (p' : Provider) :
  userGetByID (w_db w) (req_UserID req) = Some u ->
  CountUserMessagesForToday (w_db w) (req_UserID req) (w_now w) < u_MessageRateLimit u ->
  req_Type req <> ""%string ->
  In up' (GetUserProvidersByPriority (w_db w) (req_UserID req)) ->
  providerGetByID (w_db w) (up_ProviderID up') = Some p' ->
  p_Type p' = req_Type req -> p_Status p' = true ->
  let ups := GetUserProvidersByPriority (w_db w) (req_UserID req) in
  exists up p w1,
    SendMessage enc req w =
      ((Some (mkResponse (db_nextTxID (w_db w)) "pending" "Message queued for processing"), None), w1)
    /\ db_txs (w_db w1) = db_txs (w_db w) ++ [submittedRow enc req w (up_ProviderID up)]
    /\ In up ups /\ providerGetByID (w_db w) (up_ProviderID up) = Some p
    /\ p_Type p = req_Type req /\ p_Status p = true
    /\ forall up2 p2, In up2 ups -> providerGetByID (w_db w) (up_ProviderID up2) = Some p2 ->
         p_Type p2 = req_Type req -> p_Status p2 = true -> up_Priority up <= up_Priority up2.
Proof. exact (SendMessage_type_hint_spec enc req w u up' p'). Qed.

Lemma find_all_false {A : Type} (P : A -> bool) (l : list A) :
  (forall x, In x l -> P x = false) -> find P l = None.
Proof.
  induction l as [|y l IH]; intro H; cbn [find]; [reflexivity|].
  rewrite (H y (or_introl eq_refl)); apply IH; intros x Hx; exact (H x (or_intror Hx)).
Qed.

Lemma filter_all_false {A : Type} (P : A -> bool) (l : list A) :
  (forall x, In x l -> P x = false) -> filter P l = [].
Proof.
  induction l as [|y l IH]; intro H; cbn [filter]; [reflexivity|].
  rewrite (H y (or_introl eq_refl)); apply IH; intros x Hx; exact (H x (or_intror Hx)).
Qed.

Lemma typeUsable_bothActive (d : DB) (ty : string) (up : UserProvider) :
  typeUsable d ty up = true -> bothActive d up = true.
Proof.
  unfold typeUsable, bothActive; destruct (providerGetByID d (up_ProviderID up)); [|auto].
  intro H; apply andb_prop in H; destruct H as [H Hu]; apply andb_prop in H.
  destruct H as [_ Hp]; rewrite Hp, Hu; reflexivity.
Qed.

Lemma SendMessage_priority_fallback_spec enc (req : MessageRequest) (w : World) (u : User)
  (up' : UserProvider) :
  userGetByID (w_db w) (req_UserID req) = Some u ->
  CountUserMessagesForToday (w_db w) (req_UserID req) (w_now w) < u_MessageRateLimit u ->
  let ups := GetUserProvidersByPriority (w_db w) (req_UserID req) in
  (req_Type req = ""%string \/
   forall up2 p2, In up2 ups -> providerGetByID (w_db w) (up_ProviderID up2) = Some p2 ->
     p_Status p2 = true -> p_Type p2 <> req_Type req) ->
  In up' ups -> bothActive (w_db w) up' = true ->
  exists up w1,
    SendMessage enc req w =
      ((Some (mkResponse (db_nextTxID (w_db w)) "pending" "Message queued for processing"), None), w1)
    /\ db_txs (w_db w1) = db_txs (w_db w) ++ [submittedRow enc req w (up_ProviderID up)]
    /\ In up ups /\ bothActive (w_db w) up = true
    /\ forall up2, In up2 ups -> bothActive (w_db w) up2 = true -> up_Priority up <= up_Priority up2.
Proof.
  intros Hu Hc ups Hty Hin Hb.
  destruct (find (bothActive (w_db w)) ups) as [x|] eqn:Ef;
    [|rewrite (find_none _ _ Ef up' Hin) in Hb; discriminate].
  assert (Hsel : selectProvider (w_db w) req ups = x).
  { rewrite selectProvider_eq; cbv zeta; rewrite Ef.
    destruct Hty as [-> | Hno]; [reflexivity|].
    rewrite filter_all_false; [destruct (negb _); reflexivity|].
    intros y Hy; destruct (typeUsable (w_db w) (req_Type req) y) eqn:E; [|reflexivity].
    exfalso; unfold typeUsable in E.
    destruct (providerGetByID (w_db w) (up_ProviderID y)) as [q|] eqn:Eq; [|discriminate].
    apply andb_prop in E; destruct E as [E _]; apply andb_prop in E; destruct E as [E Hq].
    apply String.eqb_eq in E; exact (Hno y q Hy Eq Hq E). }
  destruct (find_sorted_min _ ups x (proj1 (GetUserProvidersByPriority_spec _ _)) Ef)
    as (Hxin & Hx & Hmin).
  assert (Hpx : exists p, providerGetByID (w_db w) (up_ProviderID x) = Some p)
    by (unfold bothActive in Hx; destruct (providerGetByID _ _) as [p|];
        [exists p; reflexivity | discriminate]).
  destruct Hpx as [p Hp].
  destruct (SendMessage_selected enc req w u p Hu Hc
              ltac:(intro E; fold ups in E; rewrite E in Hin; destruct Hin)
              ltac:(fold ups; rewrite Hsel; exact Hp)) as (w1 & Hs & Htx).
  fold ups in Htx; rewrite Hsel in Htx.
  exists x, w1; split; [exact Hs|]; split; [exact Htx|].
  split; [exact Hxin|]; split; [exact Hx | exact Hmin].
Qed.

(** [SendMessage] without a usable binding of the requested type (no type
    given, or none of the user's active bindings leads to an active
    provider of that type): when some active binding leads to an active
    provider, the request is accepted and the stored row goes through the
    usable binding of lowest priority number. *)
Theorem SendMessage_priority_fallback enc (req : MessageRequest) (w : World) (u : User)
  (up' : UserProvider) :
  userGetByID (w_db w) (req_UserID req) = Some u ->
  CountUserMessagesForToday (w_db w) (req_UserID req) (w_now w) < u_MessageRateLimit u ->
  let ups := GetUserProvidersByPriority (w_db w) (req_UserID req) in
  (req_Type req = ""%string \/
   forall up2 p2, In up2 ups -> providerGetByID (w_db w) (up_ProviderID up2) = Some p2 ->
     p_Status p2 = true -> p_Type p2 <> req_Type req) ->
  In up' ups -> bothActive (w_db w) up' = true ->
  exists up w1,
    SendMessage enc req w =
      ((Some (mkResponse (db_nextTxID (w_db w)) "pending" "Message queued for processing"), None), w1)
    /\ db_txs (w_db w1) = db_txs (w_db w) ++ [submittedRow enc req w (up_ProviderID up)]
    /\ In up ups /\ bothActive (w_db w) up = true
    /\ forall up2, In up2 ups -> bothActive (w_db w) up2 = true -> up_Priority up <= up_Priority up2.
Proof. exact (SendMessage_priority_fallback_spec enc req w u up'). Qed.

Lemma SendMessage_no_usable_spec enc (req : MessageRequest) (w : World) (u : User) :
  userGetByID (w_db w) (req_UserID req) = Some u ->
  CountUserMessagesForToday (w_db w) (req_UserID req) (w_now w) < u_MessageRateLimit u ->
  GetUserProvidersByPriority (w_db w) (req_UserID req) <> [] ->
  (forall up, In up (GetUserProvidersByPriority (w_db w) (req_UserID req)) ->
              bothActive (w_db w) up = false) ->
  Forall (fun p => p_ID p <> 0) (db_providers (w_db w)) ->
  SendMessage enc req w = ((None, Some ErrProviderNotFound), w).
Proof.
  intros Hu Hc Hne Hno Hids.
  assert (Hsel : selectProvider (w_db w) req (GetUserProvidersByPriority (w_db w) (req_UserID req))
                 = zeroUserProvider).
  { rewrite selectProvider_eq; cbv zeta; rewrite (find_all_false _ _ Hno).
    rewrite filter_all_false; [destruct (negb _); reflexivity|].
    intros y Hy; destruct (typeUsable (w_db w) (req_Type req) y) eqn:E; [|reflexivity].
    apply typeUsable_bothActive in E; rewrite (Hno y Hy) in E; discriminate. }
  assert (H0 : providerGetByID (w_db w) 0 = None).
  { unfold providerGetByID; apply find_all_false; intros p Hp.
    rewrite Forall_forall in Hids; apply Z.eqb_neq, Hids, Hp. }
  unfold SendMessage; rewrite Hu.
  replace (u_MessageRateLimit u <=? _) with false by (symmetry; apply Z.leb_gt; exact Hc).
  destruct (GetUserProvidersByPriority (w_db w) (req_UserID req)) as [|up0 ups] eqn:E;
    [contradiction|].
  rewrite Hsel; cbn [up_ProviderID zeroUserProvider]; rewrite H0; reflexivity.
Qed.

(** [SendMessage] when the user has active bindings but none leads to an
    existing active provider (and, as with auto-increment ids, no provider
    has id 0): [selectedProvider] keeps its zero value, the lookup of
    provider 0 fails and the call returns the provider-not-found error
    whatever type was requested; nothing is stored or queued. *)
Theorem SendMessage_no_usable_binding enc (req : MessageRequest) (w : World) (u : User) :
  userGetByID (w_db w) (req_UserID req) = Some u ->
  CountUserMessagesForToday (w_db w) (req_UserID req) (w_now w) < u_MessageRateLimit u ->
  GetUserProvidersByPriority (w_db w) (req_UserID req) <> [] ->
  (forall up, In up (GetUserProvidersByPriority (w_db w) (req_UserID req)) ->
              bothActive (w_db w) up = false) ->
  Forall (fun p => p_ID p <> 0) (db_providers (w_db w)) ->
  SendMessage enc req w = ((None, Some ErrProviderNotFound), w).
Proof. exact (SendMessage_no_usable_spec enc req w u). Qed.

(** [SendController.Message] on a body that passes the [required]
    checks, for a user who exists, is under the daily limit and has no
    active binding: the use case returns a nil response with a nil error,
    so the handler skips the 500 branch and reads [useCaseResponse.ID]
    through a nil pointer (a panic, answered by gin's recovery middleware);
    nothing is stored or queued. *)
Theorem MessageHandler_no_bindings_panics enc (b : SendBody) (rs : list string) (w : World)
  (u : User) :
  b_Type b <> ""%string -> b_Message b <> ""%string -> b_Recipients b = Some rs ->
  b_UserID b <> 0 ->
  userGetByID (w_db w) (b_UserID b) = Some u ->
  CountUserMessagesForToday (w_db w) (b_UserID b) (w_now w) < u_MessageRateLimit u ->
  GetUserProvidersByPriority (w_db w) (b_UserID b) = [] ->
  MessageHandler enc b w = (NilPointerPanic, w).
Proof.
  intros Ht Hm Hr Hid Hu Hc Hn; unfold MessageHandler, requiredFieldErrors.
  replace (String.eqb (b_Type b) "") with false by (symmetry; apply String.eqb_neq; exact Ht).
  replace (String.eqb (b_Message b) "") with false by (symmetry; apply String.eqb_neq; exact Hm).
  replace (b_UserID b =? 0) with false by (symmetry; apply Z.eqb_neq; exact Hid).
  rewrite Hr; cbn [app].
  unfold SendMessage; cbn [req_UserID]; rewrite Hu.
  replace (u_MessageRateLimit u <=? _) with false by (symmetry; apply Z.leb_gt; exact Hc).
  rewrite Hn; reflexivity.
Qed.

Lemma filter_length_eq {A : Type} (P : A -> bool) (l : list A) :
  List.length (filter P l) = List.length l <-> forall x, In x l -> P x = true.
Proof.
  induction l as [|y l IH]; cbn [filter List.length].
  - split; [intros _ x []|reflexivity].
  - assert (Hle : (List.length (filter P l) <= List.length l)%nat).
    { clear IH; induction l as [|z l IHl]; cbn [filter List.length]; [lia|].
      destruct (P z); cbn [List.length]; lia. }
    destruct (P y) eqn:E; cbn [List.length]; split.
    + intros H x [<-|Hx]; [exact E | apply IH; [lia | exact Hx]].
    + intro H; f_equal; apply IH; intros x Hx; apply H; right; exact Hx.
    + intro H; lia.
    + intro H; rewrite (H y (or_introl eq_refl)) in E; discriminate.
Qed.

Lemma find_filter_weaker {A : Type} (P Q : A -> bool) (l : list A) :
  (forall y, P y = true -> Q y = true) -> find P (filter Q l) = find P l.
Proof.
  intro H; induction l as [|y l IH]; cbn [filter find]; [reflexivity|].
  destruct (Q y) eqn:Eq; cbn [find].
  - destruct (P y); [reflexivity | exact IH].
  - destruct (P y) eqn:Ep; [rewrite (H y Ep) in Eq; discriminate | exact IH].
Qed.

Lemma find_none_iff {A : Type} (P : A -> bool) (l : list A) :
  find P l = None <-> forall x, In x l -> P x = false.
Proof.
  split; [intros H x Hx; exact (find_none _ _ H x Hx) | apply find_all_false].
Qed.

Lemma providerDelete_spec (d : DB) (id : Z) :
  let (d', e) := providerDelete d id in
  providerGetByID d' id = None /\
  (forall x, x <> id -> providerGetByID d' x = providerGetByID d x) /\
  db_userProviders d' = db_userProviders d /\ db_txs d' = db_txs d /\
  db_users d' = db_users d /\
  ((e = Some NotFound /\ providerGetByID d id = None) \/
   (e = None /\ providerGetByID d id <> None)).
Proof.
  assert (Hlook : forall x, x <> id ->
            providerGetByID (mkDB (db_txs d) (db_history d)
               (filter (fun p => negb (p_ID p =? id)) (db_providers d)) (db_userProviders d)
               (db_users d) (db_nextTxID d) (db_nextHistID d)) x = providerGetByID d x).
  { intros x Hx; unfold providerGetByID; cbn [db_providers].
    apply find_filter_weaker; intros p Hp; apply Z.eqb_eq in Hp; subst x.
    apply negb_true_iff, Z.eqb_neq; exact Hx. }
  assert (Hgone : providerGetByID (mkDB (db_txs d) (db_history d)
               (filter (fun p => negb (p_ID p =? id)) (db_providers d)) (db_userProviders d)
               (db_users d) (db_nextTxID d) (db_nextHistID d)) id = None).
  { unfold providerGetByID; cbn [db_providers]; apply find_all_false.
    intros p Hp; apply filter_In in Hp; destruct Hp as [_ Hp].
    apply negb_true_iff in Hp; exact Hp. }
  assert (Hnf : providerGetByID d id = None <->
                List.length (filter (fun p => negb (p_ID p =? id)) (db_providers d))
                = List.length (db_providers d)).
  { unfold providerGetByID; rewrite find_none_iff, filter_length_eq.
    split; intros H p Hp; specialize (H p Hp);
      [rewrite H; reflexivity | apply negb_true_iff in H; exact H]. }
  unfold providerDelete; cbv zeta.
  destruct (Nat.eqb _ _) eqn:E.
  - apply Nat.eqb_eq in E.
    split; [exact Hgone|]; split; [exact Hlook|]; repeat split.
    left; split; [reflexivity | apply Hnf; exact E].
  - apply Nat.eqb_neq in E.
    split; [exact Hgone|]; split; [exact Hlook|]; repeat split.
    right; split; [reflexivity | intro H; apply E, Hnf, H].
Qed.

(** Deleting a provider that all of a user's active bindings point to
    (ids other than 0, as auto-increment gives) leaves those bindings in
    place; the user's next [SendMessage] then fails with the
    provider-not-found error instead of reaching another provider. *)
Theorem providerDelete_then_SendMessage enc (req : MessageRequest) (w : World) (u : User)
  (id : Z) :
  userGetByID (w_db w) (req_UserID req) = Some u ->
  CountUserMessagesForToday (w_db w) (req_UserID req) (w_now w) < u_MessageRateLimit u ->
  GetUserProvidersByPriority (w_db w) (req_UserID req) <> [] ->
  (forall up, In up (GetUserProvidersByPriority (w_db w) (req_UserID req)) ->
              up_ProviderID up = id) ->
  Forall (fun p => p_ID p <> 0) (db_providers (w_db w)) ->
  let w' := set_db (fst (providerDelete (w_db w) id)) w in
  SendMessage enc req w' = ((None, Some ErrProviderNotFound), w').
Proof.
  intros Hu Hc Hne Hall Hids w'.
  pose proof (providerDelete_spec (w_db w) id) as Hs.
  destruct (providerDelete (w_db w) id) as [d' e] eqn:Ed.
  destruct Hs as (Hgone & _ & Hup & Htx & Hus & _).
  assert (Hg : GetUserProvidersByPriority (w_db w') (req_UserID req) =
               GetUserProvidersByPriority (w_db w) (req_UserID req))
    by (unfold GetUserProvidersByPriority; subst w'; cbn [w_db set_db fst]; rewrite Hup;
        reflexivity).
  apply SendMessage_no_usable_spec with (u := u).
  - subst w'; unfold userGetByID; cbn [w_db set_db fst]; rewrite Hus; exact Hu.
  - subst w'; unfold CountUserMessagesForToday; cbn [w_db w_now set_db fst]; rewrite Htx;
      exact Hc.
  - rewrite Hg; exact Hne.
  - rewrite Hg; intros up Hin; unfold bothActive.
    rewrite (Hall up Hin); subst w'; cbn [w_db set_db fst]; rewrite Hgone; reflexivity.
  - subst w'; cbn [w_db set_db fst].
    unfold providerDelete in Ed; cbv zeta in Ed.
    destruct (Nat.eqb _ _); injection Ed as <- _; cbn [db_providers];
      apply Forall_forall; intros p Hp; apply filter_In in Hp;
      rewrite Forall_forall in Hids; exact (Hids p (proj1 Hp)).
Qed.

Lemma filter_and {A : Type} (P Q : A -> bool) (l : list A) :
  filter P (filter Q l) = filter (fun x => Q x && P x) l.
Proof.
  induction l as [|y l IH]; cbn [filter]; [reflexivity|].
  destruct (Q y); cbn [filter andb]; [destruct (P y); [f_equal|]|]; exact IH.
Qed.

Lemma Permutation_filter_map {A : Type} (f : A -> bool) (l l' : list A) :
  Permutation l l' -> Permutation (filter f l) (filter f l').
Proof.
  induction 1 as [|x l l' _ IH|x y l|l l' l'' _ IH1 _ IH2]; cbn [filter].
  - constructor.
  - destruct (f x); [constructor|]; exact IH.
  - destruct (f x), (f y); try constructor; reflexivity.
  - etransitivity; [exact IH1 | exact IH2].
Qed.

Lemma userProviderDelete_spec (d : DB) (id : Z) :
  let (d', e) := userProviderDelete d id in
  (forall uid, Permutation (GetUserProvidersByPriority d' uid)
                           (filter (fun up => negb (up_ID up =? id))
                                   (GetUserProvidersByPriority d uid))) /\
  (forall uid up, In up (GetUserProvidersByPriority d' uid) -> up_ID up <> id) /\
  db_providers d' = db_providers d /\ db_txs d' = db_txs d /\ db_users d' = db_users d /\
  (e = Some NotFound <-> forall up, In up (db_userProviders d) -> up_ID up <> id).
Proof.
  set (B := fun up : UserProvider => negb (up_ID up =? id)).
  set (d' := mkDB (db_txs d) (db_history d) (db_providers d) (filter B (db_userProviders d))
                  (db_users d) (db_nextTxID d) (db_nextHistID d)).
  assert (Hperm : forall uid, Permutation (GetUserProvidersByPriority d' uid)
                    (filter B (GetUserProvidersByPriority d uid))).
  { intro uid.
    rewrite (proj2 (GetUserProvidersByPriority_spec d' uid)).
    rewrite (Permutation_filter_map B _ _ (proj2 (GetUserProvidersByPriority_spec d uid))).
    subst d'; cbn [db_userProviders].
    rewrite !filter_and.
    apply Permutation_refl'; apply filter_ext; intro x; subst B; cbv beta.
    rewrite andb_comm; reflexivity. }
  assert (Hnot : forall uid up, In up (GetUserProvidersByPriority d' uid) -> up_ID up <> id).
  { intros uid up Hin; apply (Permutation_in _ (Hperm uid)) in Hin.
    apply filter_In in Hin; destruct Hin as [_ Hb]; subst B; cbv beta in Hb.
    apply negb_true_iff, Z.eqb_neq in Hb; exact Hb. }
  assert (Hnf : (forall up, In up (db_userProviders d) -> up_ID up <> id) <->
                List.length (filter B (db_userProviders d)) = List.length (db_userProviders d)).
  { rewrite filter_length_eq; subst B; cbv beta.
    split; intros H up Hup; specialize (H up Hup);
      [apply negb_true_iff, Z.eqb_neq; exact H | apply negb_true_iff, Z.eqb_neq in H; exact H]. }
  unfold userProviderDelete; cbv zeta; fold B; fold d'.
  destruct (Nat.eqb _ _) eqn:E.
  - apply Nat.eqb_eq in E.
    split; [exact Hperm|]; split; [exact Hnot|]; split; [reflexivity|]; split; [reflexivity|].
    split; [reflexivity|]; split; [intros _; apply Hnf; exact E | reflexivity].
  - apply Nat.eqb_neq in E.
    split; [exact Hperm|]; split; [exact Hnot|]; split; [reflexivity|]; split; [reflexivity|].
    split; [reflexivity|]; split; [discriminate | intro H; exfalso; apply E, Hnf, H].
Qed.

(** ** Rows created by the scanners and the daily count *)

Definition dayKey (t : MessageTransaction) : Z * Z := (tx_UserID t, tx_CreatedAt t).

(** The active table grew by rows created at [now]; the old rows keep
    their user and creation time. *)
Definition grownSameDay (now : Z) (before after : list MessageTransaction) : Prop :=
  exists old created,
    after = old ++ created /\ map dayKey old = map dayKey before /\
    Forall (fun c => tx_CreatedAt c = now) created.

Lemma grownSameDay_append (now : Z) (b a : list MessageTransaction) (c : MessageTransaction) :
  grownSameDay now b a -> tx_CreatedAt c = now -> grownSameDay now b (a ++ [c]).
Proof.
  intros (old & cr & -> & Hk & Hc) Hcn.
  exists old, (cr ++ [c]); split; [symmetry; apply app_assoc|]; split; [exact Hk|].
  apply Forall_app; split; [exact Hc | constructor; [exact Hcn | constructor]].
Qed.

Lemma grownSameDay_map (now : Z) (b a : list MessageTransaction)
  (f : MessageTransaction -> MessageTransaction) :
  (forall u, tx_UserID (f u) = tx_UserID u /\ tx_CreatedAt (f u) = tx_CreatedAt u) ->
  grownSameDay now b a -> grownSameDay now b (map f a).
Proof.
  intros Hf (old & cr & -> & Hk & Hc).
  exists (map f old), (map f cr); split; [apply map_app|]; split.
  - rewrite map_map, <- Hk; apply map_ext; intro u; unfold dayKey.
    destruct (Hf u) as [-> ->]; reflexivity.
  - apply Forall_map; eapply Forall_impl; [|exact Hc]; intros u Hu.
    rewrite (proj2 (Hf u)); exact Hu.
Qed.

Lemma Update_row_day (id now : Z) (fs : list TxField) (u : MessageTransaction) :
  let f := fun t => if tx_ID t =? id then touch now (fold_left applyField fs t) else t in
  tx_UserID (f u) = tx_UserID u /\ tx_CreatedAt (f u) = tx_CreatedAt u.
Proof.
  destruct (Update_row_keeps id now fs u) as (_ & _ & H1 & H2); split; assumption.
Qed.

Lemma undeliveredStep_day (now : Z) (b : list MessageTransaction) (w : World)
  (msg : MessageTransaction) :
  w_now w = now -> grownSameDay now b (db_txs (w_db w)) ->
  w_now (undeliveredStep w msg) = now /\
  grownSameDay now b (db_txs (w_db (undeliveredStep w msg))).
Proof.
  intros Hn H; unfold undeliveredStep.
  destruct (find _ _) as [np|]; [|split; assumption].
  unfold Create; cbv beta iota zeta.
  rewrite (proj1 (EnqueueFallback_keeps _ _)), (proj2 (EnqueueFallback_keeps _ _)).
  cbn [w_db w_now set_db]; split; [exact Hn|].
  rewrite MoveToHistory_txs; unfold Update; cbn [db_txs].
  apply grownSameDay_map; [intro u; apply Update_row_day|].
  apply grownSameDay_append; [exact H | cbn [tx_CreatedAt]; exact Hn].
Qed.

Lemma undeliveredLoop_day (now : Z) (b rows : list MessageTransaction) :
  forall w, w_now w = now -> grownSameDay now b (db_txs (w_db w)) ->
  grownSameDay now b (db_txs (w_db (fold_left undeliveredStep rows w))).
Proof.
  induction rows as [|m ms IH]; intros w Hn H; cbn [fold_left]; [exact H|].
  destruct (undeliveredStep_day now b w m Hn H) as [Hn' H'].
  exact (IH _ Hn' H').
Qed.

Lemma retryScan_day (now : Z) (b : list MessageTransaction) (f : MessageTransaction)
  (all rest : list UserProvider) :
  forall i w, w_now w = now -> grownSameDay now b (db_txs (w_db w)) ->
  w_now (retryScan f all rest i w) = now /\
  grownSameDay now b (db_txs (w_db (retryScan f all rest i w))).
Proof.
  induction rest as [|up rest IH]; intros i w Hn H; cbn [retryScan]; [split; assumption|].
  destruct (up_ProviderID up =? tx_ProviderID f); [|apply IH; assumption].
  destruct (nth_error all (S i)) as [np|]; [|apply IH; assumption].
  destruct (providerGetByID (w_db w) (up_ProviderID np)) as [pd|]; [|apply IH; assumption].
  destruct (negb (p_Status pd) || negb (up_Status np)); [apply IH; assumption|].
  unfold Create; cbv beta iota zeta.
  rewrite (proj1 (EnqueueMessage_keeps _ _)), (proj1 (proj2 (EnqueueMessage_keeps _ _))).
  cbn [w_db w_now set_db db_txs]; split; [exact Hn|].
  apply grownSameDay_append; [exact H | cbn [tx_CreatedAt retryTransaction]; exact Hn].
Qed.

Lemma retryLoop_day (now : Z) (b rows : list MessageTransaction) :
  forall w, w_now w = now -> grownSameDay now b (db_txs (w_db w)) ->
  grownSameDay now b (db_txs (w_db (fold_left retryOne rows w))).
Proof.
  induction rows as [|m ms IH]; intros w Hn H; cbn [fold_left]; [exact H|].
  unfold retryOne at 2.
  destruct (GetUserProvidersByPriority (w_db w) (tx_UserID m)) as [|up ups].
  - exact (IH w Hn H).
  - destruct (retryScan_day now b m (up :: ups) (up :: ups) 0 w Hn H) as [Hn' H'].
    exact (IH _ Hn' H').
Qed.

Lemma filter_length_map_eq {A B : Type} (g : A -> B) (h : B -> bool) (l1 l2 : list A) :
  map g l1 = map g l2 ->
  List.length (filter (fun x => h (g x)) l1) = List.length (filter (fun x => h (g x)) l2).
Proof.
  revert l2; induction l1 as [|x l1 IH]; intros [|y l2] H; cbn [map] in H;
    try discriminate; [reflexivity|].
  injection H as Hxy Hl; cbn [filter]; rewrite Hxy.
  destruct (h (g y)); cbn [List.length]; rewrite (IH l2 Hl); reflexivity.
Qed.

Lemma grownSameDay_count (now uid : Z) (d d' : DB) :
  grownSameDay now (db_txs d) (db_txs d') ->
  exists old created,
    db_txs d' = old ++ created /\ map dayKey old = map dayKey (db_txs d) /\
    Forall (fun c => tx_CreatedAt c = now) created /\
    CountUserMessagesForToday d' uid now =
    CountUserMessagesForToday d uid now +
      Z.of_nat (List.length (filter (fun c => tx_UserID c =? uid) created)).
Proof.
  intros (old & cr & Hd & Hk & Hc).
  exists old, cr; split; [exact Hd|]; split; [exact Hk|]; split; [exact Hc|].
  unfold CountUserMessagesForToday; rewrite Hd, filter_app, length_app, Nat2Z.inj_add.
  f_equal; [f_equal|].
  - exact (filter_length_map_eq dayKey
             (fun k => (fst k =? uid) && (startOfDay now <=? snd k)
                       && (snd k <? startOfDay now + 86400)) old (db_txs d) Hk).
  - f_equal; f_equal; apply filter_ext_in; intros c Hin.
    rewrite Forall_forall in Hc; rewrite (Hc c Hin).
    destruct (day_bounds now) as [H1 H2].
    replace (startOfDay now <=? now) with true by (symmetry; apply Z.leb_le; exact H1).
    replace (now <? startOfDay now + 86400) with true by (symmetry; apply Z.ltb_lt; exact H2).
    rewrite !andb_true_r; reflexivity.
Qed.

Lemma scanners_day_spec (w : World) (uid : Z) :
  let now := w_now w in
  (exists old created,
    db_txs (w_db (RetryFailedMessages w)) = old ++ created /\
    map dayKey old = map dayKey (db_txs (w_db w)) /\
    Forall (fun c => tx_CreatedAt c = now) created /\
    CountUserMessagesForToday (w_db (RetryFailedMessages w)) uid now =
    CountUserMessagesForToday (w_db w) uid now +
      Z.of_nat (List.length (filter (fun c => tx_UserID c =? uid) created))) /\
  (exists old created,
    db_txs (w_db (checkUndeliveredMessages w)) = old ++ created /\
    map dayKey old = map dayKey (db_txs (w_db w)) /\
    Forall (fun c => tx_CreatedAt c = now) created /\
    CountUserMessagesForToday (w_db (checkUndeliveredMessages w)) uid now =
    CountUserMessagesForToday (w_db w) uid now +
      Z.of_nat (List.length (filter (fun c => tx_UserID c =? uid) created))).
Proof.
  assert (H0 : grownSameDay (w_now w) (db_txs (w_db w)) (db_txs (w_db w)))
    by (exists (db_txs (w_db w)), []; rewrite app_nil_r; auto).
  split; apply grownSameDay_count.
  - apply (retryLoop_day _ _ _ w eq_refl H0).
  - apply (undeliveredLoop_day _ _ _ w eq_refl H0).
Qed.

(** The retry planner ([RetryFailedMessages]) and pass B
    ([checkUndeliveredMessages]) only append rows created at the current
    instant and never change the user or creation time of an existing row;
    so each row they create for a user counts toward that user's
    [CountUserMessagesForToday], and the count never goes down: retries
    and fallbacks use up the user's daily limit for [SendMessage]. *)
Theorem scanners_created_rows_count_today (w : World) (uid : Z) :
  let now := w_now w in
  (exists old created,
    db_txs (w_db (RetryFailedMessages w)) = old ++ created /\
    map dayKey old = map dayKey (db_txs (w_db w)) /\
    Forall (fun c => tx_CreatedAt c = now) created /\
    CountUserMessagesForToday (w_db (RetryFailedMessages w)) uid now =
    CountUserMessagesForToday (w_db w) uid now +
      Z.of_nat (List.length (filter (fun c => tx_UserID c =? uid) created))) /\
  (exists old created,
    db_txs (w_db (checkUndeliveredMessages w)) = old ++ created /\
    map dayKey old = map dayKey (db_txs (w_db w)) /\
    Forall (fun c => tx_CreatedAt c = now) created /\
    CountUserMessagesForToday (w_db (checkUndeliveredMessages w)) uid now =
    CountUserMessagesForToday (w_db w) uid now +
      Z.of_nat (List.length (filter (fun c => tx_UserID c =? uid) created))).
Proof. exact (scanners_day_spec w uid). Qed.

(** ** Pass B at a fixed instant *)

(** The row filter of [GetUndeliveredMessages]. *)
Definition undeliv (now : Z) (t : MessageTransaction) : bool :=
  String.eqb (tx_Status t) "success" && negb (tx_Processing t) && (tx_UpdatedAt t <=? now - 300).

(** No binding of the row's user leads to another provider: the loop body
    of [checkUndeliveredMessages] skips the row. *)
Definition noAlt (d : DB) (m : MessageTransaction) : Prop :=
  find (fun up => negb (up_ProviderID up =? tx_ProviderID m))
       (GetUserProvidersByPriority d (tx_UserID m)) = None.

Lemma GetUndeliveredMessages_undeliv (d : DB) (now : Z) :
  GetUndeliveredMessages d now = filter (undeliv now) (db_txs d).
Proof. reflexivity. Qed.

Lemma sameRegistry_trans (d1 d2 d3 : DB) :
  sameRegistry d1 d2 -> sameRegistry d2 d3 -> sameRegistry d1 d3.
Proof.
  intros (A1 & B1 & C1) (A2 & B2 & C2); split; [|split]; congruence.
Qed.

Lemma MoveToHistory_sameRegistry (d : DB) (id now : Z) :
  sameRegistry d (MoveToHistory d id now).
Proof.
  destruct (MoveToHistory_registry d id now) as (A & B & C & _); split; [|split]; assumption.
Qed.

Lemma Update_sameRegistry (d : DB) (id : Z) (fs : list TxField) (now : Z) :
  sameRegistry d (Update d id fs now).
Proof. split; [|split]; reflexivity. Qed.

Lemma undeliveredStep_rows (w : World) (m : MessageTransaction) :
  w_now (undeliveredStep w m) = w_now w /\ sameRegistry (w_db w) (w_db (undeliveredStep w m)) /\
  forall r, In r (db_txs (w_db (undeliveredStep w m))) -> undeliv (w_now w) r = true ->
    In r (db_txs (w_db w)) /\ (noAlt (w_db w) m \/ tx_ID r <> tx_ID m).
Proof.
  unfold undeliveredStep, noAlt; cbv zeta.
  destruct (find _ _) as [np|] eqn:E.
  - unfold Create; cbv beta iota zeta.
    rewrite (proj1 (EnqueueFallback_keeps _ _)), (proj2 (EnqueueFallback_keeps _ _)).
    cbn [w_db w_now set_db].
    split; [reflexivity|]; split.
    + eapply sameRegistry_trans; [|apply MoveToHistory_sameRegistry].
      eapply sameRegistry_trans; [|apply Update_sameRegistry].
      split; [|split]; reflexivity.
    + intros r Hin Hu; rewrite MoveToHistory_txs in Hin; unfold Update in Hin;
        cbn [db_txs] in Hin.
      apply in_map_iff in Hin; destruct Hin as (x & Hx & Hin).
      destruct (tx_ID x =? tx_ID m) eqn:Ex.
      * subst r; cbn in Hu; discriminate.
      * subst r; apply in_app_or in Hin; destruct Hin as [Hin | [<- | []]].
        -- split; [exact Hin|]; right; apply Z.eqb_neq; exact Ex.
        -- cbn in Hu; discriminate.
  - split; [reflexivity|]; split; [split; [|split]; reflexivity|].
    intros r Hin _; split; [exact Hin | left; reflexivity].
Qed.

Definition passBInv (d0 : DB) (now : Z) (done : list MessageTransaction) (w : World) : Prop :=
  w_now w = now /\ sameRegistry d0 (w_db w) /\
  forall r, In r (db_txs (w_db w)) -> undeliv now r = true ->
    In r (db_txs d0) /\ forall m, In m done -> tx_ID r = tx_ID m -> noAlt d0 m.

Lemma passB_loop (d0 : DB) (now : Z) (rest : list MessageTransaction) :
  forall done w, passBInv d0 now done w ->
  passBInv d0 now (done ++ rest) (fold_left undeliveredStep rest w).
Proof.
  induction rest as [|m rest IH]; intros done w (Hn & Hr & Hrows); cbn [fold_left].
  - rewrite app_nil_r; split; [exact Hn|]; split; assumption.
  - replace (done ++ m :: rest) with ((done ++ [m]) ++ rest) by (rewrite <- app_assoc; reflexivity).
    apply IH.
    destruct (undeliveredStep_rows w m) as (Hn' & Hr' & Hrows').
    assert (Hna : noAlt (w_db w) m -> noAlt d0 m).
    { unfold noAlt; rewrite (proj1 (proj2 (sameRegistry_reads d0 (w_db w) (tx_UserID m) Hr)));
        exact (fun H => H). }
    split; [rewrite Hn'; exact Hn|]; split; [exact (sameRegistry_trans _ _ _ Hr Hr')|].
    intros r Hin Hu; rewrite Hn in Hrows'.
    destruct (Hrows' r Hin Hu) as [Hin' Halt].
    destruct (Hrows r Hin' Hu) as [H0 Hdone].
    split; [exact H0|].
    intros m' Hm' Hid; apply in_app_or in Hm'; destruct Hm' as [Hm' | [<- | []]].
    + exact (Hdone m' Hm' Hid).
    + destruct Halt as [Ha | Hne]; [exact (Hna Ha) | contradiction].
Qed.

Lemma passB_skip_all (rows : list MessageTransaction) :
  forall w, (forall r, In r rows -> noAlt (w_db w) r) -> fold_left undeliveredStep rows w = w.
Proof.
  induction rows as [|r rows IH]; intros w H; cbn [fold_left]; [reflexivity|].
  replace (undeliveredStep w r) with w.
  - apply IH; intros r' Hr'; apply H; right; exact Hr'.
  - symmetry; unfold undeliveredStep; cbv zeta.
    rewrite (H r (or_introl eq_refl)); reflexivity.
Qed.

Lemma checkUndeliveredMessages_idem_spec (w : World) :
  checkUndeliveredMessages (checkUndeliveredMessages w) = checkUndeliveredMessages w.
Proof.
  set (d0 := w_db w); set (now := w_now w).
  set (L := GetUndeliveredMessages d0 now).
  assert (H0 : passBInv d0 now [] w).
  { split; [reflexivity|]; split; [split; [|split]; reflexivity|].
    intros r Hin _; split; [exact Hin | intros m []]. }
  pose proof (passB_loop d0 now L [] w H0) as (Hn & Hr & Hrows).
  cbn [app] in Hrows.
  unfold checkUndeliveredMessages at 1.
  fold d0 now L; fold (checkUndeliveredMessages w).
  change (fold_left undeliveredStep L w) with (checkUndeliveredMessages w) in Hn, Hr, Hrows.
  apply passB_skip_all.
  intros r Hin; rewrite GetUndeliveredMessages_undeliv, Hn in Hin.
  apply filter_In in Hin; destruct Hin as [Hin Hu].
  destruct (Hrows r Hin Hu) as [Hd0 Hdone].
  unfold noAlt; rewrite (proj1 (proj2 (sameRegistry_reads d0 _ (tx_UserID r) Hr))).
  apply Hdone; [|reflexivity].
  unfold L; rewrite GetUndeliveredMessages_undeliv; apply filter_In; split; assumption.
Qed.

(** Pass B ([checkUndeliveredMessages]) run again at the same instant
    changes nothing: every row it flips gets status fallback_triggered and
    is not selected again, the rows it creates are pending, and a success
    row it left alone has no binding to another provider, so it is skipped
    again.  A fallback is never triggered twice for one row at one scan
    time. *)
Theorem checkUndeliveredMessages_idempotent (w : World) :
  checkUndeliveredMessages (checkUndeliveredMessages w) = checkUndeliveredMessages w.
Proof. exact (checkUndeliveredMessages_idem_spec w). Qed.

(** ** Instances of the properties above *)

Definition fx_pendingRow : MessageTransaction :=
  mkTx 1 7 1 "+15550100" "hi" "" "" "pending" "" 0 None false None fx_now fx_now.

Definition fx_emailRow : MessageTransaction :=
  mkTx 1 7 2 "+15550100" "hi" "" "" "pending" "" 0 None false None fx_now fx_now.

Definition fx_pendingWorld : World :=
  mkWorld (mkDB [fx_pendingRow] [] fx_providers fx_userProviders [mkUser 7 3] 2 1)
          [] [] [] fx_now.

Definition fx_emailWorld : World :=
  mkWorld (mkDB [fx_emailRow] [] fx_providers fx_userProviders [mkUser 7 3] 2 1)
          [] [] [] fx_now.

(** The same store with a full queue. *)
Definition fx_fullWorld : World :=
  mkWorld (w_db fx_pendingWorld) (repeat fx_pendingRow queueCapacity) [] [] fx_now.

(** User 7 bound only to the inactive sms provider. *)
Definition fx_inactiveWorld : World :=
  mkWorld (mkDB [] [] fx_providers [mkUserProvider 1 7 3 1 "" true] [mkUser 7 3] 1 1)
          [] [] [] fx_now.

(** User 7 bound only to the Signal provider 1. *)
Definition fx_signalOnlyWorld : World :=
  mkWorld (mkDB [] [] fx_providers [mkUserProvider 1 7 1 1 "" true] [mkUser 7 3] 1 1)
          [] [] [] fx_now.

Definition fx_refused (_ : MessageTransaction) : SendV2Result := SendV2Err "connection refused".

Definition fx_emailRequest : MessageRequest := mkRequest "email" "hi" ["+15550100"%string] 7.

Lemma checkPendingMessages_enqueues_witness :
  (List.length (w_queue fx_pendingWorld) <= queueCapacity)%nat /\
  List.length (w_queue (checkPendingMessages fx_pendingWorld)) = 1%nat.
Proof.
  assert (H : (List.length (w_queue fx_pendingWorld) <= queueCapacity)%nat)
    by (vm_compute; lia).
  split; [exact H|].
  destruct (checkPendingMessages_enqueues fx_pendingWorld H) as (_ & _ & Q & _).
  rewrite Q; vm_compute; reflexivity.
Defined.

Lemma checkPendingMessages_full_queue_strands_witness :
  NoDup (map tx_ID (db_txs (w_db fx_fullWorld))) /\
  List.length (w_queue fx_fullWorld) = queueCapacity /\
  w_queue (checkPendingMessages fx_fullWorld) = w_queue fx_fullWorld /\
  tx_Processing (hd fx_emailRow (db_txs (w_db (checkPendingMessages fx_fullWorld)))) = true.
Proof.
  assert (H1 : NoDup (map tx_ID (db_txs (w_db fx_fullWorld))))
    by (vm_compute; constructor; [intros [] | constructor]).
  assert (H2 : List.length (w_queue fx_fullWorld) = queueCapacity) by (vm_compute; reflexivity).
  split; [exact H1|]; split; [exact H2|]; split.
  - exact (proj1 (checkPendingMessages_full_queue_strands fx_fullWorld H1 H2)).
  - vm_compute; reflexivity.
Defined.

Lemma SendMessage_then_checkPendingMessages_enqueues_twice_witness :
  filter isPendingUnlocked (db_txs (w_db fx_world)) = [] /\
  (List.length (w_queue fx_world) + 2 <= queueCapacity)%nat /\
  SendMessage fx_marshal fx_request fx_world =
    ((Some (mkResponse 1 "pending" "Message queued for processing"), None),
     snd (SendMessage fx_marshal fx_request fx_world)) /\
  exists c, tx_ID c = 1 /\ tx_Status c = "pending"%string /\
    w_queue (checkPendingMessages (snd (SendMessage fx_marshal fx_request fx_world))) = [c; c].
Proof.
  assert (H1 : filter isPendingUnlocked (db_txs (w_db fx_world)) = []) by reflexivity.
  assert (H2 : (List.length (w_queue fx_world) + 2 <= queueCapacity)%nat) by (vm_compute; lia).
  assert (H3 : SendMessage fx_marshal fx_request fx_world =
    ((Some (mkResponse 1 "pending" "Message queued for processing"), None),
     snd (SendMessage fx_marshal fx_request fx_world))) by (vm_compute; reflexivity).
  split; [exact H1|]; split; [exact H2|]; split; [exact H3|].
  exact (SendMessage_then_checkPendingMessages_enqueues_twice fx_marshal fx_request fx_world
           _ _ H1 H2 H3).
Defined.

Lemma GetMessageStatusHandler_after_submit_witness :
  Forall (fun t => tx_ID t < db_nextTxID (w_db fx_world)) (db_txs (w_db fx_world)) /\
  SendMessage fx_marshal fx_request fx_world =
    ((Some (mkResponse 1 "pending" "Message queued for processing"), None),
     snd (SendMessage fx_marshal fx_request fx_world)) /\
  GetMessageStatusHandler (w_db (snd (SendMessage fx_marshal fx_request fx_world))) 1 =
    Reply 200 (BodyStatus (mkStatusResponse 1 "pending" "hi" "+15550100" "" 0 fx_now fx_now)) /\
  GetMessageStatusHandler (w_db (snd (SendMessage fx_marshal fx_request fx_world))) 2 =
    Reply 500 (BodyError "Error getting message status").
Proof.
  assert (H1 : Forall (fun t => tx_ID t < db_nextTxID (w_db fx_world)) (db_txs (w_db fx_world)))
    by (vm_compute; constructor).
  assert (H2 : SendMessage fx_marshal fx_request fx_world =
    ((Some (mkResponse 1 "pending" "Message queued for processing"), None),
     snd (SendMessage fx_marshal fx_request fx_world))) by (vm_compute; reflexivity).
  destruct (GetMessageStatusHandler_after_submit fx_marshal fx_request fx_world _ _ H1 H2)
    as [A B].
  split; [exact H1|]; split; [exact H2|]; split; [exact A|].
  apply B; vm_compute; discriminate.
Defined.

Lemma processMessage_signal_always_success_witness :
  providerGetByID (w_db fx_pendingWorld) 1 = Some (mkProvider 1 "signal-main" "signal" true) /\
  txGetByID (w_db fx_pendingWorld) 1 = Some fx_pendingRow /\
  exists t', txGetByID (w_db (processMessage fx_decode fx_signalRequest fx_refused fx_notFound
                               fx_pendingRow fx_pendingWorld)) 1 = Some t' /\
             tx_Status t' = "success"%string /\ tx_ResponseData t' = ""%string.
Proof.
  assert (H1 : providerGetByID (w_db fx_pendingWorld) (tx_ProviderID fx_pendingRow) =
               Some (mkProvider 1 "signal-main" "signal" true)) by reflexivity.
  assert (H2 : txGetByID (w_db fx_pendingWorld) (tx_ID fx_pendingRow) = Some fx_pendingRow)
    by reflexivity.
  split; [exact H1|]; split; [exact H2|].
  destruct (processMessage_signal_always_success fx_decode fx_signalRequest fx_refused fx_notFound
              fx_pendingRow fx_pendingWorld _ _ H1 eq_refl eq_refl H2)
    as (t' & L & S & _ & _ & _ & _ & R & _).
  exists t'; split; [exact L|]; split; [exact S | exact R].
Defined.

Lemma processMessage_non_signal_fails_witness :
  providerGetByID (w_db fx_emailWorld) 2 = Some (mkProvider 2 "mail" "email" true) /\
  exists t', txGetByID (w_db (processMessage fx_decode fx_signalRequest fx_signalOk fx_notFound
                               fx_emailRow fx_emailWorld)) 1 = Some t' /\
             tx_Status t' = "failed"%string /\
             tx_ErrorMessage t' = "email provider not implemented yet"%string.
Proof.
  assert (H1 : providerGetByID (w_db fx_emailWorld) (tx_ProviderID fx_emailRow) =
               Some (mkProvider 2 "mail" "email" true)) by reflexivity.
  assert (H3 : p_Type (mkProvider 2 "mail" "email" true) <> "signal"%string)
    by (apply String.eqb_neq; reflexivity).
  assert (H4 : txGetByID (w_db fx_emailWorld) (tx_ID fx_emailRow) = Some fx_emailRow)
    by reflexivity.
  split; [exact H1|].
  destruct (processMessage_non_signal_fails fx_decode fx_signalRequest fx_signalOk fx_notFound
              fx_emailRow fx_emailWorld _ _ H1 eq_refl H3 H4) as (t' & L & S & E & _).
  exists t'; split; [exact L|]; split; [exact S | exact E].
Defined.

Lemma SendMessage_type_hint_witness :
  exists up p w1,
    SendMessage fx_marshal fx_emailRequest fx_world =
      ((Some (mkResponse 1 "pending" "Message queued for processing"), None), w1) /\
    providerGetByID fx_db (up_ProviderID up) = Some p /\ p_Type p = "email"%string.
Proof.
  assert (H1 : userGetByID (w_db fx_world) (req_UserID fx_emailRequest) = Some (mkUser 7 3))
    by reflexivity.
  assert (H2 : CountUserMessagesForToday (w_db fx_world) (req_UserID fx_emailRequest)
                 (w_now fx_world) < u_MessageRateLimit (mkUser 7 3)) by (vm_compute; reflexivity).
  assert (H3 : req_Type fx_emailRequest <> ""%string) by (apply String.eqb_neq; reflexivity).
  assert (H4 : In (mkUserProvider 2 7 2 2 "" true)
                  (GetUserProvidersByPriority (w_db fx_world) (req_UserID fx_emailRequest)))
    by (vm_compute; right; left; reflexivity).
  assert (H5 : providerGetByID (w_db fx_world) (up_ProviderID (mkUserProvider 2 7 2 2 "" true))
               = Some (mkProvider 2 "mail" "email" true)) by reflexivity.
  destruct (SendMessage_type_hint fx_marshal fx_emailRequest fx_world _ _ _ H1 H2 H3 H4 H5
              eq_refl eq_refl) as (up & p & w1 & S & _ & _ & P & T & _).
  exists up, p, w1; split; [exact S|]; split; [exact P | exact T].
Defined.

Lemma SendMessage_priority_fallback_witness :
  exists up w1,
    SendMessage fx_marshal fx_request fx_world =
      ((Some (mkResponse 1 "pending" "Message queued for processing"), None), w1) /\
    bothActive fx_db up = true.
Proof.
  assert (H1 : userGetByID (w_db fx_world) (req_UserID fx_request) = Some (mkUser 7 3))
    by reflexivity.
  assert (H2 : CountUserMessagesForToday (w_db fx_world) (req_UserID fx_request)
                 (w_now fx_world) < u_MessageRateLimit (mkUser 7 3)) by (vm_compute; reflexivity).
  assert (H4 : In (mkUserProvider 1 7 1 1 fx_hookConfig true)
                  (GetUserProvidersByPriority (w_db fx_world) (req_UserID fx_request)))
    by (vm_compute; left; reflexivity).
  destruct (SendMessage_priority_fallback fx_marshal fx_request fx_world _ _ H1 H2
              (or_introl eq_refl) H4 eq_refl) as (up & w1 & S & _ & _ & B & _).
  exists up, w1; split; [exact S | exact B].
Defined.

Lemma SendMessage_no_usable_binding_witness :
  SendMessage fx_marshal fx_request fx_inactiveWorld =
    ((None, Some ErrProviderNotFound), fx_inactiveWorld).
Proof.
  apply (SendMessage_no_usable_binding fx_marshal fx_request fx_inactiveWorld (mkUser 7 3)).
  - reflexivity.
  - vm_compute; reflexivity.
  - vm_compute; discriminate.
  - vm_compute; intros up [<-|[]]; reflexivity.
  - vm_compute; repeat constructor; discriminate.
Defined.

Lemma MessageHandler_no_bindings_panics_witness :
  MessageHandler fx_marshal (mkSendBody "signal" "hi" (Some ["+15550100"%string]) 8) fx_world =
    (NilPointerPanic, fx_world).
Proof.
  apply (MessageHandler_no_bindings_panics fx_marshal
           (mkSendBody "signal" "hi" (Some ["+15550100"%string]) 8) ["+15550100"%string]
           fx_world (mkUser 8 5)).
  - discriminate.
  - discriminate.
  - reflexivity.
  - discriminate.
  - reflexivity.
  - vm_compute; reflexivity.
  - vm_compute; reflexivity.
Defined.

Lemma providerDelete_then_SendMessage_witness :
  SendMessage fx_marshal fx_request
    (set_db (fst (providerDelete (w_db fx_signalOnlyWorld) 1)) fx_signalOnlyWorld) =
  ((None, Some ErrProviderNotFound),
   set_db (fst (providerDelete (w_db fx_signalOnlyWorld) 1)) fx_signalOnlyWorld).
Proof.
  apply (providerDelete_then_SendMessage fx_marshal fx_request fx_signalOnlyWorld (mkUser 7 3) 1).
  - reflexivity.
  - vm_compute; reflexivity.
  - vm_compute; discriminate.
  - vm_compute; intros up [<-|[]]; reflexivity.
  - vm_compute; repeat constructor; discriminate.
Defined.
